(** * cm-go-service: the service bootstrap of [main.go]

    The development embeds [main.go] shallowly.  The functions of the file
    ([main], [registerEndpoints], [newHTTPServer], [startHTTPServer],
    [stopHTTPServer], [waitForSignal]) are definitions of this file; the
    packages they call ([time], [net/http], [gorilla/mux], [httphandlers],
    [go-logger], [go-metrics], [mow.cli]) are modelled after their
    documented behaviour and only as far as [main.go] uses them.

    A goroutine is the list of operations it has left to run; the process
    is a state on which the goroutines, the signals and the arriving
    requests take steps in any order.

    Time is Go's [time.Duration]: a count of nanoseconds.  A handler is
    described by what it does with a request: it returns after some time
    with a response, it never returns, or it panics.  The middleware layers
    are constructors of the handler type, so that the order in which
    [registerEndpoints] stacks them can be read off the value it builds. *)

From Stdlib Require Import ZArith Lia.
From stdpp Require Import base option list gmap strings.

Local Open Scope string_scope.
Local Open Scope Z_scope.

(** ** Package [time] *)

Module time.

(** [time.Duration] is an [int64] count of nanoseconds. *)
Definition Duration := Z.

Definition Nanosecond : Duration := 1.
Definition Microsecond : Duration := 1000 * Nanosecond.
Definition Millisecond : Duration := 1000 * Microsecond.
Definition Second : Duration := 1000 * Millisecond.

End time.

(** ** The constants of [main.go] *)

Definition appDescription : string := "".
Definition httpServerReadTimeout : time.Duration := 10 * time.Second.
Definition httpServerWriteTimeout : time.Duration := 15 * time.Second.
Definition httpServerIdleTimeout : time.Duration := 20 * time.Second.
Definition httpHandlersTimeout : time.Duration := 14 * time.Second.

(** ** Package [go-logger] *)

Module logger.

(** The levels of the logrus logger under [UPPLogger], most severe
    first. *)
Inductive Level :=
| PanicLevel | FatalLevel | ErrorLevel | WarnLevel
| InfoLevel | DebugLevel | TraceLevel.

Definition severity (l : Level) : nat :=
  match l with
  | PanicLevel => 0 | FatalLevel => 1 | ErrorLevel => 2 | WarnLevel => 3
  | InfoLevel => 4 | DebugLevel => 5 | TraceLevel => 6
  end%nat.

Definition lower (c : Ascii.ascii) : Ascii.ascii :=
  let n := Ascii.nat_of_ascii c in
  if ((65 <=? n) && (n <=? 90))%nat then Ascii.ascii_of_nat (n + 32) else c.

(** [strings.ToLower], on the letters A to Z. *)
Fixpoint ToLower (s : string) : string :=
  match s with
  | EmptyString => EmptyString
  | String c r => String (lower c) (ToLower r)
  end.

(** [logrus.ParseLevel]: the name of a level, in any letter case. *)
Definition ParseLevel (lvl : string) : option Level :=
  let l := ToLower lvl in
  if String.eqb l "panic" then Some PanicLevel
  else if String.eqb l "fatal" then Some FatalLevel
  else if String.eqb l "error" then Some ErrorLevel
  else if String.eqb l "warn" || String.eqb l "warning" then Some WarnLevel
  else if String.eqb l "info" then Some InfoLevel
  else if String.eqb l "debug" then Some DebugLevel
  else if String.eqb l "trace" then Some TraceLevel
  else None.

(** The logger [NewUPPLogger] returns: the service name its entries carry
    and the level it is set to. *)
Record UPPLogger := { serviceName : string; level : option Level }.

(** [NewUPPLogger]: the level is the one the name given parses to.
    [None] stands for a name that is not the name of a level: how the
    library handles it is outside [main.go] and is left open. *)
Definition NewUPPLogger (name logLevel : string) : UPPLogger :=
  {| serviceName := name; level := ParseLevel logLevel |}.

(** [Logger.IsLevelEnabled]: an entry of level [l] is written when the
    level of the logger is [l] or a more verbose one.  Nothing is counted
    as written for a logger without a level. *)
Definition IsLevelEnabled (log : UPPLogger) (l : Level) : bool :=
  match level log with
  | Some lv => (severity l <=? severity lv)%nat
  | None => false
  end.

End logger.

(** ** Package [go-metrics] *)

Module metrics.

(** The process-wide registry is the only one [main.go] uses. *)
Inductive Registry := DefaultRegistry.

End metrics.

(** ** Package [path] *)

Module path.

(** The elements of a path, between its slashes. *)
Fixpoint elements (s : string) : list string :=
  match s with
  | EmptyString => [EmptyString]
  | String c r =>
      if String.eqb (String c EmptyString) "/" then EmptyString :: elements r
      else match elements r with
           | e :: es => String c e :: es
           | [] => [String c EmptyString]
           end
  end.

(** Empty elements and [.] are dropped; [..] drops the element before it,
    and is dropped itself at the root.  [kept] holds the elements kept so
    far, last first. *)
Fixpoint resolve (els kept : list string) : list string :=
  match els with
  | [] => reverse kept
  | e :: rest =>
      if String.eqb e "" || String.eqb e "." then resolve rest kept
      else if String.eqb e ".." then resolve rest (tail kept)
      else resolve rest (e :: kept)
  end.

(** [path.Clean], on a rooted path (its callers here root the path
    first). *)
Definition Clean (p : string) : string :=
  "/" +:+ String.concat "/" (resolve (elements p) []).

Fixpoint lastByte (s : string) : option Ascii.ascii :=
  match s with
  | EmptyString => None
  | String c EmptyString => Some c
  | String _ r => lastByte r
  end.

(** The last byte is a slash. *)
Definition endsInSlash (s : string) : bool :=
  match lastByte s with
  | Some c => String.eqb (String c EmptyString) "/"
  | None => false
  end.

(** [cleanPath], which [net/http] and [gorilla/mux] each define: the
    canonical form of a request path, rooted, without [.], [..] and
    repeated slashes, a trailing slash kept. *)
Definition cleanPath (p : string) : string :=
  if String.eqb p "" then "/"
  else
    let p := if String.prefix "/" p then p else "/" +:+ p in
    let np := Clean p in
    if endsInSlash p && negb (String.eqb np "/") then np +:+ "/" else np.

End path.

(** ** Package [net/http] *)

Module http.

Definition StatusMovedPermanently : Z := 301.
Definition StatusBadRequest : Z := 400.
Definition StatusNotFound : Z := 404.
Definition StatusMethodNotAllowed : Z := 405.
Definition StatusServiceUnavailable : Z := 503.

(** A request as the handlers of [main.go] see it.  [Path] is the path of
    the URL as it was received, decoded ([*] for the request target [*],
    and for no other); [RawQuery] is the query of the URL, without the
    question mark; [Deadline] is the deadline of the request's context,
    counted from the start of the request ([None]: the context has no
    deadline).  Headers are not modelled, of a request or of a response. *)
Record Request := {
  Method : string;
  Path : string;
  RawQuery : string;
  Deadline : option time.Duration
}.

Record Response := { Code : Z; Body : string }.

(** What one call of [ServeHTTP] does, as its caller observes it. *)
Inductive Run :=
| Returns (after : time.Duration) (resp : Response)
| Blocks
| Panics (after : time.Duration).

(** What the middleware layers record while a request is served. *)
Inductive Event :=
| Logged (method path : string) (status : Z) (took : time.Duration)
| Timed (method : string) (took : time.Duration).

Record Outcome := { run : Run; trace : list Event }.

(** The interface [http.Handler]. *)
Class Handler (H : Type) := ServeHTTP : H → Request → Outcome.

(** [http.HandlerFunc]: a plain function used as a handler. *)
Definition HandlerFunc := Request → Run.

(** [http.NotFound]. *)
Definition NotFound : Run :=
  Returns 0 {| Code := StatusNotFound;
               Body := "404 page not found" +:+ String (Ascii.ascii_of_nat 10) "" |}.

(** [cleanPath] of [server.go]. *)
Definition cleanPath (p : string) : string := path.cleanPath p.

(** The path is in the form [cleanPath] leaves it in. *)
Definition clean (p : string) : bool := String.eqb (cleanPath p) p.

Definition hexDigit (n : nat) : Ascii.ascii :=
  Ascii.ascii_of_nat (if (n <? 10)%nat then 48 + n else 55 + n).

Definition between (lo hi n : nat) : bool := ((lo <=? n) && (n <=? hi))%nat.

(** [shouldEscape] of [net/url] for a path: letters, digits and the marks
    [-_.~$&+,/:;=@] stay as they are. *)
Definition shouldEscape (c : Ascii.ascii) : bool :=
  let n := Ascii.nat_of_ascii c in
  negb (between 97 122 n || between 65 90 n || between 48 57 n
        || existsb (Nat.eqb n) [45; 95; 46; 126; 36; 38; 43; 44; 47; 58; 59; 61; 64]%nat).

(** [URL.EscapedPath] of a path that has no raw form. *)
Fixpoint escapedPath (p : string) : string :=
  match p with
  | EmptyString => EmptyString
  | String c r =>
      if shouldEscape c then
        let n := Ascii.nat_of_ascii c in
        String (Ascii.ascii_of_nat 37)
          (String (hexDigit (n / 16)) (String (hexDigit (n mod 16)) (escapedPath r)))
      else String c (escapedPath r)
  end.

(** [htmlEscape]. *)
Fixpoint htmlEscape (s : string) : string :=
  match s with
  | EmptyString => EmptyString
  | String c r =>
      let n := Ascii.nat_of_ascii c in
      (if (n =? 38)%nat then "&amp;"
       else if (n =? 60)%nat then "&lt;"
       else if (n =? 62)%nat then "&gt;"
       else if (n =? 34)%nat then "&#34;"
       else if (n =? 39)%nat then "&#39;"
       else String c EmptyString) +:+ htmlEscape r
  end.

Definition quote : string := String (Ascii.ascii_of_nat 34) EmptyString.
Definition newline : string := String (Ascii.ascii_of_nat 10) EmptyString.

(** [URL.String] of the URL a mux redirects to: the path, escaped, then
    the query of the request when it has one. *)
Definition redirectURL (target query : string) : string :=
  escapedPath target
  +:+ (if String.eqb query "" then "" else "?" +:+ query).

(** A URL up to its first question mark, and the rest of it. *)
Fixpoint cutQuery (url : string) : string * string :=
  match url with
  | EmptyString => (EmptyString, EmptyString)
  | String c r =>
      if (Ascii.nat_of_ascii c =? 63)%nat then (EmptyString, url)
      else (String c (cutQuery r).1, (cutQuery r).2)
  end.

(** [Redirect] with [StatusMovedPermanently], to a rooted URL without
    scheme and host: the path of the URL is cleaned once more, its
    trailing slash kept.  The status and the location are the whole answer,
    but for GET, which gets a short note with the location as well. *)
Definition Redirect (r : Request) (url : string) : Run :=
  let p := (cutQuery url).1 in
  let cleaned := path.Clean p in
  let location :=
    (if path.endsInSlash p && negb (path.endsInSlash cleaned)
     then cleaned +:+ "/" else cleaned) +:+ (cutQuery url).2 in
  Returns 0
    {| Code := StatusMovedPermanently;
       Body := if String.eqb (Method r) "GET" then
                 "<a href=" +:+ quote +:+ htmlEscape location +:+ quote
                 +:+ ">Moved Permanently</a>." +:+ newline +:+ newline
               else "" |}.

(** [context.WithTimeout] on the request's context: the earlier deadline
    wins. *)
Definition WithTimeout (r : Request) (dt : time.Duration) : Request :=
  {| Method := Method r; Path := Path r; RawQuery := RawQuery r;
     Deadline := Some (match Deadline r with
                       | Some d => Z.min d dt
                       | None => dt
                       end) |}.

(** The body [TimeoutHandler] sends when its message is empty. *)
Definition errorBody (msg : string) : string :=
  if String.eqb msg "" then
    "<html><head><title>Timeout</title></head><body><h1>Timeout</h1></body></html>"
  else msg.

Definition timedOut (dt : time.Duration) (msg : string) : Run :=
  Returns dt {| Code := StatusServiceUnavailable; Body := errorBody msg |}.

(** The call returns, or panics, before [dt] has passed. *)
Definition finishesBefore (dt : time.Duration) (r : Run) : bool :=
  match r with
  | Returns d _ => d <? dt
  | Blocks => false
  | Panics d => d <? dt
  end.

(** [timeoutHandler.ServeHTTP]: the wrapped handler runs on a goroutine of
    its own against a buffered writer; the caller waits for the first of
    its return, its panic and the deadline [dt].  The goroutine is not
    killed by the deadline: whatever it does later is lost to the client
    (its writes fail with [ErrHandlerTimeout]). *)
Definition timeoutRun (dt : time.Duration) (msg : string) (inner : Run) : Run :=
  if finishesBefore dt inner then inner else timedOut dt msg.

End http.

(** ** Package [gorilla/mux] *)

Module mux.

(** A route of the services router: a path template without variables, the
    methods it is restricted to (none: every method) and its handler. *)
Record Route := {
  tpl : string;
  methods : list string;
  handler : http.HandlerFunc
}.

Record Router := { routes : list Route }.

Definition NewRouter : Router := {| routes := [] |}.

(** [r.HandleFunc(path, f)] appends a route; [.Methods(...)] restricts the
    route just added. *)
Definition HandleFunc (r : Router) (path : string) (f : http.HandlerFunc) : Router :=
  {| routes := routes r ++ [ {| tpl := path; methods := []; handler := f |} ] |}.

Definition restrict (ms : list string) (rt : Route) : Route :=
  {| tpl := tpl rt; methods := ms; handler := handler rt |}.

Definition Methods (r : Router) (ms : list string) : Router :=
  match reverse (routes r) with
  | [] => r
  | last :: before => {| routes := reverse (restrict ms last :: before) |}
  end.

Inductive RouteMatch :=
| Matched (f : http.HandlerFunc)
| ErrMethodMismatch
| ErrNotFound.

Definition matchInArray (ms : list string) (m : string) : bool :=
  existsb (String.eqb m) ms.

Definition methodMatches (rt : Route) (req : http.Request) : bool :=
  match methods rt with
  | [] => true
  | ms => matchInArray ms (http.Method req)
  end.

(** [Router.Match]: the first route whose path and method both match; a
    route that matches the path but not the method leaves
    [ErrMethodMismatch] behind when no later route matches. *)
Fixpoint matchRoutes (rs : list Route) (req : http.Request) (mismatch : bool)
  : RouteMatch :=
  match rs with
  | [] => if mismatch then ErrMethodMismatch else ErrNotFound
  | rt :: rest =>
      if String.eqb (tpl rt) (http.Path req) then
        if methodMatches rt req then Matched (handler rt)
        else matchRoutes rest req true
      else matchRoutes rest req mismatch
  end.

Definition Match (r : Router) (req : http.Request) : RouteMatch :=
  matchRoutes (routes r) req false.

(** [methodNotAllowed]: the status alone. *)
Definition methodNotAllowed : http.Run :=
  http.Returns 0 {| http.Code := http.StatusMethodNotAllowed; http.Body := "" |}.

(** [cleanPath] of [mux.go]. *)
Definition cleanPath (p : string) : string := path.cleanPath p.

(** [Router.ServeHTTP]: a path that is not clean is answered with a
    redirect to the clean one, the status and the location alone, whatever
    the method; else the routes are matched. *)
Definition serve (r : Router) (req : http.Request) : http.Run :=
  if negb (String.eqb (cleanPath (http.Path req)) (http.Path req)) then
    http.Returns 0 {| http.Code := http.StatusMovedPermanently; http.Body := "" |}
  else
    match Match r req with
    | Matched f => f req
    | ErrMethodMismatch => methodNotAllowed
    | ErrNotFound => http.NotFound
    end.

End mux.

(** ** The handlers [main.go] builds *)

(** The handler values that occur in [main.go]: plain functions, the
    services router, and the three wrappers applied to it. *)
Inductive handler :=
| Func (f : http.HandlerFunc)
| ServicesRouter (r : mux.Router)
| TransactionAwareRequestLoggingHandler (log : logger.UPPLogger) (h : handler)
| HTTPMetricsHandler (registry : metrics.Registry) (h : handler)
| TimeoutHandler (h : handler) (dt : time.Duration) (msg : string).

(** The logging layer writes its entry once the wrapped handler has
    returned: method, path, status written and time taken. *)
Definition requestLog (req : http.Request) (o : http.Run) : list http.Event :=
  match o with
  | http.Returns d resp =>
      [http.Logged (http.Method req) (http.Path req) (http.Code resp) d]
  | _ => []
  end.

(** The timer of the metrics layer is keyed by the request method. *)
Definition requestTimer (req : http.Request) (o : http.Run) : list http.Event :=
  match o with
  | http.Returns d _ => [http.Timed (http.Method req) d]
  | _ => []
  end.

Fixpoint serveHandler (h : handler) (req : http.Request) : http.Outcome :=
  match h with
  | Func f => {| http.run := f req; http.trace := [] |}
  | ServicesRouter r => {| http.run := mux.serve r req; http.trace := [] |}
  | TransactionAwareRequestLoggingHandler log h' =>
      let o := serveHandler h' req in
      {| http.run := http.run o;
         http.trace := http.trace o ++ requestLog req (http.run o) |}
  | HTTPMetricsHandler _ h' =>
      let o := serveHandler h' req in
      {| http.run := http.run o;
         http.trace := http.trace o ++ requestTimer req (http.run o) |}
  | TimeoutHandler h' dt msg =>
      let o := serveHandler h' (http.WithTimeout req dt) in
      {| http.run := http.timeoutRun dt msg (http.run o);
         http.trace := http.trace o |}
  end.

#[export] Instance handler_Handler : http.Handler handler := serveHandler.

(** The wrappers of a handler, outermost first. *)
Inductive Layer := LoggingLayer | MetricsLayer | TimeoutLayer.

Fixpoint layers (h : handler) : list Layer :=
  match h with
  | Func _ | ServicesRouter _ => []
  | TransactionAwareRequestLoggingHandler _ h' => LoggingLayer :: layers h'
  | HTTPMetricsHandler _ h' => MetricsLayer :: layers h'
  | TimeoutHandler h' _ _ => TimeoutLayer :: layers h'
  end.

(** The handler under all wrappers. *)
Fixpoint base (h : handler) : handler :=
  match h with
  | Func _ | ServicesRouter _ => h
  | TransactionAwareRequestLoggingHandler _ h' => base h'
  | HTTPMetricsHandler _ h' => base h'
  | TimeoutHandler h' _ _ => base h'
  end.

(** ** [http.ServeMux] *)

Module ServeMux.

(** [m] holds every pattern; [es] holds the patterns that end in a slash,
    longest first. *)
Record t := { m : gmap string handler; es : list (string * handler) }.

Definition New : t := {| m := ∅; es := [] |}.

(** [appendSorted]: insert before the first shorter pattern. *)
Fixpoint appendSorted (es : list (string * handler)) (e : string * handler)
  : list (string * handler) :=
  match es with
  | [] => [e]
  | e' :: rest =>
      if (String.length e'.1 <? String.length e.1)%nat then e :: es
      else e' :: appendSorted rest e
  end.

(** [mux.Handle]: [None] stands for the panic on an empty pattern or on a
    pattern registered twice. *)
Definition Handle (mx : t) (pattern : string) (h : handler) : option t :=
  if String.eqb pattern "" then None
  else match m mx !! pattern with
       | Some _ => None
       | None =>
           Some {| m := <[pattern := h]> (m mx);
                   es := if path.endsInSlash pattern
                         then appendSorted (es mx) (pattern, h)
                         else es mx |}
       end.

Definition HandleFunc (mx : t) (pattern : string) (f : http.HandlerFunc) : option t :=
  Handle mx pattern (Func f).

(** [mux.match]: the exact pattern first, then the longest pattern ending
    in a slash that is a prefix of the path. *)
Definition lookup (mx : t) (path : string) : option handler :=
  match m mx !! path with
  | Some h => Some h
  | None => snd <$> find (λ e, String.prefix e.1 path) (es mx)
  end.

(** [mux.handler]: the handler of the pattern that matches; no pattern
    matches, not found. *)
Definition dispatch (mx : t) (req : http.Request) : http.Outcome :=
  match lookup mx (http.Path req) with
  | Some h => serveHandler h req
  | None => {| http.run := http.NotFound; http.trace := [] |}
  end.

(** [mux.shouldRedirectRLocked]: the path has no pattern of its own, but
    the path followed by a slash has.  (Patterns that name a host are left
    out: [main.go] registers none.) *)
Definition shouldRedirect (mx : t) (p : string) : bool :=
  match m mx !! p with
  | Some _ => false
  | None =>
      if String.eqb p "" then false
      else match m mx !! (p +:+ "/") with
           | Some _ => negb (path.endsInSlash p)
           | None => false
           end
  end.

(** What the mux answers itself, without a registered handler. *)
Definition answer (r : http.Run) : http.Outcome :=
  {| http.run := r; http.trace := [] |}.

(** [RedirectHandler] for the path [target] and the query of the
    request. *)
Definition redirect (req : http.Request) (target : string) : http.Outcome :=
  answer (http.Redirect req (http.redirectURL target (http.RawQuery req))).

(** [mux.ServeHTTP] with [mux.Handler], as in the releases of Go before
    1.22.  The request target [*] is a bad request (an OPTIONS request for
    it is answered by the server, before the mux is asked).
    The path of a CONNECT request is taken as it is.  Any other path is
    cleaned first, and a request whose path was not clean is redirected to
    the clean one: no registered handler sees it. *)
Definition serve (mx : t) (req : http.Request) : http.Outcome :=
  let p := http.Path req in
  if String.eqb p "*" then
    answer (http.Returns 0 {| http.Code := http.StatusBadRequest;
                              http.Body := "" |})
  else if String.eqb (http.Method req) "CONNECT" then
    if shouldRedirect mx p then redirect req (p +:+ "/")
    else dispatch mx req
  else
    let cleaned := http.cleanPath p in
    if shouldRedirect mx cleaned then redirect req (cleaned +:+ "/")
    else if negb (String.eqb cleaned p) then redirect req cleaned
    else dispatch mx req.

End ServeMux.

#[export] Instance ServeMux_Handler : http.Handler ServeMux.t := ServeMux.serve.

(** ** Package [service-status-go] and the health service *)

Module status.

(** Modelled from the spec: the path constants of [service-status-go] are
    not in [main.go]; the spec's interface table gives the good-to-go path
    as [/__gtg] and the build-info path as [/__build-info]. *)
Definition GTGPath : string := "/__gtg".
Definition BuildInfoPath : string := "/__build-info".

End status.

(** The operational paths, and the paths [ServeMux] files under [/]. *)
Definition operational (path : string) : bool :=
  String.eqb path "/__health" || String.eqb path status.GTGPath
  || String.eqb path status.BuildInfoPath.

Definition rooted (path : string) : bool := String.prefix "/" path.

(** Modelled from the spec: [NewHealthService] is declared in another file
    of the repository; the spec's data model gives the service identity it
    holds as system code, display name and description. *)
Record HealthService := {
  systemCode : string;
  displayName : string;
  description : string
}.

Definition NewHealthService (code name desc : string) : HealthService :=
  {| systemCode := code; displayName := name; description := desc |}.

(** ** Package [mow.cli] *)

Module cli.

Record StringOpt := {
  Name : string;
  Value : string;
  Desc : string;
  EnvVar : string
}.

(** [os.Getenv]: the empty string when the variable is not set. *)
Definition Getenv (env : gmap string string) (k : string) : string :=
  default "" (env !! k).

(** The application: the options declared so far and the string cell each
    declaration returned a pointer to, keyed by the option's name. *)
Record Cli := {
  name : string;
  desc : string;
  options : list StringOpt;
  cells : gmap string string
}.

Definition App (name desc : string) : Cli :=
  {| name := name; desc := desc; options := []; cells := ∅ |}.

(** [app.String]: the cell starts at the option's default and is set from
    the option's environment variable at once, when that is not empty.
    The pointer returned is the key of the cell. *)
Definition String (env : gmap string string) (app : Cli) (o : StringOpt)
  : Cli * string :=
  let v := Getenv env (EnvVar o) in
  let init := if String.eqb v "" then Value o else v in
  ({| name := name app; desc := desc app;
      options := options app ++ [o];
      cells := <[Name o := init]> (cells app) |}, Name o).

(** [*p]. *)
Definition deref (app : Cli) (p : string) : string :=
  default "" (cells app !! p).

Definition declared (app : Cli) (n : string) : bool :=
  existsb (λ o, String.eqb (Name o) n) (options app).

Definition set (app : Cli) (n v : string) : Cli :=
  {| name := name app; desc := desc app; options := options app;
     cells := <[n := v]> (cells app) |}.

(** The options given on the command line, as name and value, are written
    to their cells in order; an option that was not declared is an error
    of the command line. *)
Fixpoint parse (app : Cli) (flags : list (string * string)) : option Cli :=
  match flags with
  | [] => Some app
  | (n, v) :: rest =>
      if declared app n then parse (set app n v) rest else None
  end.

End cli.

(** ** [newHTTPServer] *)

(** [http.Server], with the fields [newHTTPServer] sets. *)
Record Server := {
  Addr : string;
  Handler : ServeMux.t;
  ReadTimeout : time.Duration;
  WriteTimeout : time.Duration;
  IdleTimeout : time.Duration
}.

Definition newHTTPServer (port : string) (router : ServeMux.t) : Server :=
  {| Addr := ":" +:+ port;
     Handler := router;
     ReadTimeout := httpServerReadTimeout;
     WriteTimeout := httpServerWriteTimeout;
     IdleTimeout := httpServerIdleTimeout |}.

(** ** What the configuration comes to *)

(** The value of an option before the command line is read: its environment
    variable when that is set and not empty, its default otherwise. *)
Definition configured (env : gmap string string) (var dflt : string) : string :=
  match env !! var with
  | Some v => if String.eqb v "" then dflt else v
  | None => dflt
  end.

(** The value the command line gives an option, the last one when it is
    given more than once. *)
Fixpoint flagValue (flags : list (string * string)) (n : string) : option string :=
  match flags with
  | [] => None
  | (n', v) :: rest =>
      match flagValue rest n with
      | Some v' => Some v'
      | None => if String.eqb n' n then Some v else None
      end
  end.

(** ** The process: goroutines, the listener, signals *)

Inductive error :=
| ErrServerClosed
| DeadlineExceeded
| OpError (msg : string).

(** [err.Error()]. *)
Definition Error (e : error) : string :=
  match e with
  | ErrServerClosed => "http: Server closed"
  | DeadlineExceeded => "context deadline exceeded"
  | OpError msg => msg
  end.

Definition error_eqb (a b : error) : bool :=
  match a, b with
  | ErrServerClosed, ErrServerClosed => true
  | DeadlineExceeded, DeadlineExceeded => true
  | OpError x, OpError y => String.eqb x y
  | _, _ => false
  end.

(** [err != nil] and [err != e], on an error value that may be [nil]. *)
Definition notNil (err : option error) : bool :=
  match err with Some _ => true | None => false end.

Definition differs (err : option error) (e : error) : bool :=
  match err with Some e' => negb (error_eqb e' e) | None => true end.

Inductive Signal := SIGINT | SIGTERM.

Definition Signal_eqb (a b : Signal) : bool :=
  match a, b with
  | SIGINT, SIGINT | SIGTERM, SIGTERM => true
  | _, _ => false
  end.

(** What a goroutine of this program has left to do.  Each constructor is
    one operation on the process, followed by the rest; an operation that
    yields a value hands it to the rest. *)
Inductive Prog :=
| Done
| Log (log : logger.UPPLogger) (lvl : logger.Level) (msg : string) (k : Prog)
| Exit (code : Z)
| Panic
| Go (body : Prog) (k : Prog)
| ShuttingDown (k : bool → Prog)
| Listen (srv : Server) (k : option error → Prog)
| Serve (k : error → Prog)
| BeginShutdown (k : Prog)
| Drain (timeout : time.Duration) (k : option error → Prog)
| Notify (sigs : list Signal) (k : Prog)
| Recv (k : Signal → Prog).

(** [log.Fatalf]: the entry, then [os.Exit(1)]. *)
Definition Fatalf (log : logger.UPPLogger) (msg : string) : Prog :=
  Log log logger.FatalLevel msg (Exit 1).

(** [srv.ListenAndServe]: nothing is bound once the server is shutting
    down; a failed bind is returned as it is; otherwise the accept loop runs
    until it fails or the server is shut down. *)
Definition ListenAndServe (srv : Server) (k : option error → Prog) : Prog :=
  ShuttingDown (λ closing,
    if closing then k (Some ErrServerClosed)
    else Listen srv (λ r,
      match r with
      | Some e => k (Some e)
      | None => Serve (λ e, k (Some e))
      end)).

(** [srv.Shutdown(ctx)]: the listener is closed at once, then the call waits
    until no request is in flight or the context is done. *)
Definition Shutdown (srv : Server) (timeout : time.Duration)
    (k : option error → Prog) : Prog :=
  BeginShutdown (Drain timeout k).

Inductive ExitStatus :=
| Code (c : Z)
| Killed (s : Signal).

Inductive Event :=
| EvLog (log : logger.UPPLogger) (lvl : logger.Level) (msg : string)
| EvGo
| EvListen (addr : string) (r : option error)
| EvServeReturned (e : error)
| EvShutdown
| EvDrained (r : option error)
| EvNotify
| EvRecv (s : Signal)
| EvExit (c : Z)
| EvPanic.

(** The lines of a history that are written: the entries whose level the
    logger they were given to has enabled. *)
Fixpoint written (h : list Event) : list (logger.Level * string) :=
  match h with
  | [] => []
  | EvLog log lvl msg :: rest =>
      if logger.IsLevelEnabled log lvl then (lvl, msg) :: written rest
      else written rest
  | _ :: rest => written rest
  end.

(** The process.  [inflight] holds, for each request being served, the time
    it still needs counted from the call of [Shutdown] ([None]: it never
    completes); [ch] is the signal channel of capacity one. *)
Record State := {
  main_ : Prog;
  goroutines : list Prog;
  listening : bool;
  inShutdown : bool;
  inflight : list (option time.Duration);
  notified : list Signal;
  ch : list Signal;
  history : list Event;
  exit : option ExitStatus
}.

Definition start (p : Prog) : State :=
  {| main_ := p; goroutines := []; listening := false; inShutdown := false;
     inflight := []; notified := []; ch := []; history := []; exit := None |}.

(** What the world decides when an operation asks it. *)
Inductive Oracle :=
| Quiet
| Bind (r : option error)
| AcceptFails (e : error).

Definition completesWithin (t : time.Duration) (r : option time.Duration) : bool :=
  match r with Some d => d <? t | None => false end.

Definition record (ev : Event) (σ : State) : State :=
  {| main_ := main_ σ; goroutines := goroutines σ; listening := listening σ;
     inShutdown := inShutdown σ; inflight := inflight σ;
     notified := notified σ; ch := ch σ;
     history := history σ ++ [ev]; exit := exit σ |}.

Definition spawn (body : Prog) (σ : State) : State :=
  {| main_ := main_ σ; goroutines := goroutines σ ++ [body];
     listening := listening σ;
     inShutdown := inShutdown σ; inflight := inflight σ;
     notified := notified σ; ch := ch σ;
     history := history σ; exit := exit σ |}.

Definition setListening (b : bool) (σ : State) : State :=
  {| main_ := main_ σ; goroutines := goroutines σ; listening := b;
     inShutdown := inShutdown σ; inflight := inflight σ;
     notified := notified σ; ch := ch σ;
     history := history σ; exit := exit σ |}.

Definition setInShutdown (σ : State) : State :=
  {| main_ := main_ σ; goroutines := goroutines σ; listening := listening σ;
     inShutdown := true; inflight := inflight σ;
     notified := notified σ; ch := ch σ;
     history := history σ; exit := exit σ |}.

Definition setInflight (rs : list (option time.Duration)) (σ : State) : State :=
  {| main_ := main_ σ; goroutines := goroutines σ; listening := listening σ;
     inShutdown := inShutdown σ; inflight := rs;
     notified := notified σ; ch := ch σ;
     history := history σ; exit := exit σ |}.

Definition setNotified (sigs : list Signal) (σ : State) : State :=
  {| main_ := main_ σ; goroutines := goroutines σ; listening := listening σ;
     inShutdown := inShutdown σ; inflight := inflight σ;
     notified := sigs; ch := ch σ;
     history := history σ; exit := exit σ |}.

Definition setCh (c : list Signal) (σ : State) : State :=
  {| main_ := main_ σ; goroutines := goroutines σ; listening := listening σ;
     inShutdown := inShutdown σ; inflight := inflight σ;
     notified := notified σ; ch := c;
     history := history σ; exit := exit σ |}.

(** The end of the process closes what it holds. *)
Definition terminate (st : ExitStatus) (σ : State) : State :=
  {| main_ := main_ σ; goroutines := goroutines σ; listening := false;
     inShutdown := inShutdown σ; inflight := [];
     notified := notified σ; ch := ch σ;
     history := history σ; exit := Some st |}.

(** One operation of a goroutine: the rest of the goroutine and the process
    after it, or [None] when the operation cannot proceed now. *)
Definition exec (o : Oracle) (p : Prog) (σ : State) : option (Prog * State) :=
  match p with
  | Done => None
  | Log l lvl msg k => Some (k, record (EvLog l lvl msg) σ)
  | Exit c => Some (Done, terminate (Code c) (record (EvExit c) σ))
  | Panic => Some (Done, terminate (Code 2) (record EvPanic σ))
  | Go body k => Some (k, spawn body (record EvGo σ))
  | ShuttingDown k => Some (k (inShutdown σ), σ)
  | Listen srv k =>
      match o with
      | Bind r =>
          Some (k r, setListening (negb (notNil r))
                       (record (EvListen (Addr srv) r) σ))
      | _ => None
      end
  | Serve k =>
      if inShutdown σ
      then Some (k ErrServerClosed, record (EvServeReturned ErrServerClosed) σ)
      else match o with
           | AcceptFails e =>
               Some (k e, setListening false (record (EvServeReturned e) σ))
           | _ => None
           end
  | BeginShutdown k =>
      Some (k, setListening false (setInShutdown (record EvShutdown σ)))
  | Drain t k =>
      let r := if forallb (completesWithin t) (inflight σ)
               then None else Some DeadlineExceeded in
      Some (k r,
            setInflight (filter (λ d, completesWithin t d = false) (inflight σ))
              (record (EvDrained r) σ))
  | Notify sigs k => Some (k, setNotified sigs (record EvNotify σ))
  | Recv k =>
      match ch σ with
      | s :: rest => Some (k s, setCh rest (record (EvRecv s) σ))
      | [] => None
      end
  end.

(** What moves the process: the main goroutine or a spawned one runs its
    next operation, a signal is delivered, a request arrives.  The main
    goroutine with nothing left to run has returned from [main]: the process
    ends with status 0.  A signal that is not relayed to the channel ends
    the process; a relayed one is dropped when the channel is full. *)
Inductive Label :=
| RunMain (o : Oracle)
| RunGo (i : nat) (o : Oracle)
| Deliver (s : Signal)
| Arrive (needs : option time.Duration).

Definition setMain (p : Prog) (σ : State) : State :=
  {| main_ := p; goroutines := goroutines σ; listening := listening σ;
     inShutdown := inShutdown σ; inflight := inflight σ;
     notified := notified σ; ch := ch σ;
     history := history σ; exit := exit σ |}.

Definition setGo (i : nat) (p : Prog) (σ : State) : State :=
  {| main_ := main_ σ; goroutines := <[i := p]> (goroutines σ);
     listening := listening σ;
     inShutdown := inShutdown σ; inflight := inflight σ;
     notified := notified σ; ch := ch σ;
     history := history σ; exit := exit σ |}.

Definition step (l : Label) (σ : State) : option State :=
  match exit σ with
  | Some _ => None
  | None =>
      match l with
      | RunMain o =>
          match main_ σ with
          | Done => Some (terminate (Code 0) σ)
          | p => '(p', σ') ← exec o p σ; Some (setMain p' σ')
          end
      | RunGo i o =>
          p ← goroutines σ !! i;
          '(p', σ') ← exec o p σ;
          Some (setGo i p' σ')
      | Deliver s =>
          if existsb (Signal_eqb s) (notified σ) then
            Some (setCh (if (length (ch σ) <? 1)%nat then ch σ ++ [s] else ch σ) σ)
          else Some (terminate (Killed s) σ)
      | Arrive d =>
          if listening σ && negb (inShutdown σ)
          then Some (setInflight (inflight σ ++ [d]) σ)
          else None
      end
  end.

Fixpoint steps (ls : list Label) (σ : State) : option State :=
  match ls with
  | [] => Some σ
  | l :: rest => σ' ← step l σ; steps rest σ'
  end.

Definition reachable (σ0 σ : State) : Prop := ∃ ls, steps ls σ0 = Some σ.

(** One goroutine run on its own for as many operations as there are
    oracles. *)
Fixpoint runSolo (os : list Oracle) (p : Prog) (σ : State)
  : option (Prog * State) :=
  match os with
  | [] => Some (p, σ)
  | o :: rest => '(p', σ') ← exec o p σ; runSolo rest p' σ'
  end.

(** ** The functions of [main.go] *)

(** Each function that returns nothing takes what follows its call as its
    last argument. *)
Definition startHTTPServer (server : Server) (log : logger.UPPLogger) (k : Prog)
  : Prog :=
  ListenAndServe server (λ err,
    if notNil err && differs err ErrServerClosed then
      Fatalf log ("http server failed to start: " +:+ from_option Error "" err)
    else k).

Definition stopHTTPServer (server : Server) (log : logger.UPPLogger) (k : Prog)
  : Prog :=
  Log log logger.InfoLevel "http server is shutting down..."
    (let ctx := 30 * time.Second in
     Shutdown server ctx (λ err,
       if notNil err then
         Fatalf log ("failed to gracefully shutdown the server: "
                     +:+ from_option Error "" err)
       else k)).

Definition waitForSignal (k : Prog) : Prog :=
  Notify [SIGINT; SIGTERM] (Recv (λ _, k)).

Section Service.

(** The handlers [main.go] only names: [TestHandler] (another file of the
    repository), [status.BuildInfoHandler], and the two handlers made from
    the health service, [fthealth.Handler(healthService.Health())] and
    [status.NewGoodToGoHandler(healthService.GTG)]. *)
Variable TestHandler : http.HandlerFunc.
Variable BuildInfoHandler : http.HandlerFunc.
Variable healthHandler : HealthService → http.HandlerFunc.
Variable gtgHandler : HealthService → http.HandlerFunc.

(** Lines 93 to 95: the services router with its one route. *)
Definition servicesRouter : mux.Router :=
  mux.Methods (mux.HandleFunc mux.NewRouter "/test" TestHandler) ["GET"].

(** Lines 99 to 102: each assignment wraps the value of the one before. *)
Definition wrappedServicesRouter (log : logger.UPPLogger) : handler :=
  let wrappedServicesRouter := ServicesRouter servicesRouter in
  let wrappedServicesRouter :=
    TransactionAwareRequestLoggingHandler log wrappedServicesRouter in
  let wrappedServicesRouter :=
    HTTPMetricsHandler metrics.DefaultRegistry wrappedServicesRouter in
  let wrappedServicesRouter :=
    TimeoutHandler wrappedServicesRouter httpHandlersTimeout "" in
  wrappedServicesRouter.

Definition registerEndpoints (healthService : HealthService)
    (log : logger.UPPLogger) : option ServeMux.t :=
  let serveMux := ServeMux.New in
  serveMux ← ServeMux.HandleFunc serveMux "/__health" (healthHandler healthService);
  serveMux ← ServeMux.HandleFunc serveMux status.GTGPath (gtgHandler healthService);
  serveMux ← ServeMux.HandleFunc serveMux status.BuildInfoPath BuildInfoHandler;
  ServeMux.Handle serveMux "/" (wrappedServicesRouter log).

(** The handler each operational path is bound to. *)
Definition operationalHandler (healthService : HealthService) (path : string)
  : option http.HandlerFunc :=
  if String.eqb path "/__health" then Some (healthHandler healthService)
  else if String.eqb path status.GTGPath then Some (gtgHandler healthService)
  else if String.eqb path status.BuildInfoPath then Some BuildInfoHandler
  else None.

(** The body of [app.Action] (lines 64 to 74), reading the option cells as
    they are when the action runs. *)
Definition action (log : logger.UPPLogger)
    (appSystemCode appName port : string) (app : cli.Cli) (k : Prog) : Prog :=
  Log log logger.InfoLevel
    ("starting with system code: " +:+ cli.deref app appSystemCode
     +:+ ", app name: " +:+ cli.deref app appName
     +:+ ", port: " +:+ cli.deref app port)
    (let healthService :=
       NewHealthService (cli.deref app appSystemCode) (cli.deref app appName)
                        appDescription in
     match registerEndpoints healthService log with
     | None => Panic
     | Some router =>
         let server := newHTTPServer (cli.deref app port) router in
         Go (startHTTPServer server log Done)
            (waitForSignal (stopHTTPServer server log k))
     end).

(** [app.Run]: a command line that does not parse ends the process with
    status 2; otherwise the action runs and [Run] returns no error. *)
Definition Run (app : cli.Cli) (flags : list (string * string))
    (act : cli.Cli → Prog → Prog) (k : option error → Prog) : Prog :=
  match cli.parse app flags with
  | Some app' => act app' (k None)
  | None => Exit 2
  end.

(** [main], for the environment and the options of the command line. *)
Definition main (env : gmap string string) (flags : list (string * string))
  : Prog :=
  let app := cli.App "cm-go-service" appDescription in
  let '(app, appSystemCode) :=
    cli.String env app
      {| cli.Name := "app-system-code"; cli.Value := "cm-go-service";
         cli.Desc := "system Code of the application";
         cli.EnvVar := "APP_SYSTEM_CODE" |} in
  let '(app, appName) :=
    cli.String env app
      {| cli.Name := "app-name"; cli.Value := "cm-go-service";
         cli.Desc := "application name";
         cli.EnvVar := "APP_NAME" |} in
  let '(app, port) :=
    cli.String env app
      {| cli.Name := "port"; cli.Value := "8080";
         cli.Desc := "port to listen on";
         cli.EnvVar := "APP_PORT" |} in
  let '(app, logLevel) :=
    cli.String env app
      {| cli.Name := "log-level"; cli.Value := "INFO";
         cli.Desc := "logging level (DEBUG, INFO, WARN, ERROR)";
         cli.EnvVar := "LOG_LEVEL" |} in
  let log := logger.NewUPPLogger (cli.deref app appName) (cli.deref app logLevel) in
  Run app flags (action log appSystemCode appName port)
    (λ err,
       if notNil err then
         Log log logger.ErrorLevel
           ("app could not start: " +:+ from_option Error "" err) Done
       else Done).

End Service.

(** ** Sample inputs *)

(** A handler that answers every request alike after [d]. *)
Definition respond (d : time.Duration) (code : Z) (body : string)
  : http.HandlerFunc :=
  λ _, http.Returns d {| http.Code := code; http.Body := body |}.

(** A handler that never returns. *)
Definition stuck : http.HandlerFunc := λ _, http.Blocks.

Definition request (method path : string) : http.Request :=
  {| http.Method := method; http.Path := path; http.RawQuery := "";
     http.Deadline := None |}.

Definition sampleHealth : HealthService :=
  NewHealthService "cm-go-service" "cm-go-service" appDescription.

Definition sampleLog : logger.UPPLogger :=
  logger.NewUPPLogger "cm-go-service" "INFO".

(** The router built around a given [TestHandler], with quick operational
    handlers. *)
Definition sampleRouter (test : http.HandlerFunc) : option ServeMux.t :=
  registerEndpoints test (respond 1 200 "build") (λ _, respond 2 200 "health")
    (λ _, respond 3 200 "OK") sampleHealth sampleLog.

(** ** Where the two goroutines can be *)

(** The points of the main goroutine, from the start of the action on;
    [Rejected] and [Ended] are those of a command line that does not
    parse. *)
Inductive MainAt :=
| Starting | Spawning | Registering | Waiting | Stopping | Closing | Draining
| Failing | Exiting | Returned | Rejected | Ended.

(** The points of the goroutine that runs [startHTTPServer]. *)
Inductive ServerAt :=
| Checking | Binding | Serving | Fatal (e : error) | Dying | Finished.

Section Points.

Variable server : Server.
Variable log : logger.UPPLogger.
Variable startLine : string.

Definition afterLog (p : Prog) : Prog :=
  match p with Log _ _ _ k => k | _ => p end.

Definition afterShutdown (p : Prog) : Prog :=
  match p with BeginShutdown k => k | _ => p end.

Definition serverAt (a : ServerAt) : Prog :=
  match a with
  | Checking => startHTTPServer server log Done
  | Binding =>
      match startHTTPServer server log Done with
      | ShuttingDown k => k false
      | p => p
      end
  | Serving =>
      match startHTTPServer server log Done with
      | ShuttingDown k =>
          match k false with Listen _ k' => k' None | p => p end
      | p => p
      end
  | Fatal e => Fatalf log ("http server failed to start: " +:+ Error e)
  | Dying => Exit 1
  | Finished => Done
  end.

Definition mainAt (a : MainAt) : Prog :=
  match a with
  | Starting =>
      Log log logger.InfoLevel startLine
        (Go (startHTTPServer server log Done)
            (waitForSignal (stopHTTPServer server log Done)))
  | Spawning =>
      Go (startHTTPServer server log Done)
         (waitForSignal (stopHTTPServer server log Done))
  | Registering => waitForSignal (stopHTTPServer server log Done)
  | Waiting => Recv (λ _, stopHTTPServer server log Done)
  | Stopping => stopHTTPServer server log Done
  | Closing => afterLog (stopHTTPServer server log Done)
  | Draining => afterShutdown (afterLog (stopHTTPServer server log Done))
  | Failing =>
      Fatalf log ("failed to gracefully shutdown the server: "
                  +:+ Error DeadlineExceeded)
  | Exiting => Exit 1
  | Returned => Done
  | Rejected => Exit 2
  | Ended => Done
  end.

(** The listener goroutine has been launched; the signals are relayed to
    the channel; [Shutdown] has been called. *)
Definition launched (a : MainAt) : bool :=
  match a with
  | Starting | Spawning | Rejected | Ended => false
  | _ => true
  end.

Definition relaying (a : MainAt) : bool :=
  match a with
  | Starting | Spawning | Registering | Rejected | Ended => false
  | _ => true
  end.

Definition shutdownCalled (a : MainAt) : bool :=
  match a with
  | Draining | Failing | Exiting | Returned => true
  | _ => false
  end.

(** The process is at [a], with the listener goroutine, once launched, at
    some point of its own. *)
Definition at_ (a : MainAt) (σ : State) : Prop :=
  main_ σ = mainAt a
  ∧ (if launched a then ∃ s, goroutines σ = [serverAt s]
     else goroutines σ = [])
  ∧ notified σ = (if relaying a then [SIGINT; SIGTERM] else [])
  ∧ inShutdown σ = shutdownCalled a.

End Points.

(** The program of the process for a given environment and command line,
    with the sample handlers. *)
Definition sampleMain (env : gmap string string) (flags : list (string * string))
  : Prog :=
  main (respond 5 200 "test") (respond 1 200 "build")
    (λ _, respond 2 200 "health") (λ _, respond 3 200 "OK") env flags.

(** The names of the options [main] declares. *)
Definition optionNames : list string :=
  ["app-system-code"; "app-name"; "port"; "log-level"].

Definition sampleServer : Server := newHTTPServer "8080" ServeMux.New.

(** The process blocked on the signal channel with the listener serving,
    the given requests in flight and a SIGTERM just delivered. *)
Definition sampleWaiting (requests : list (option time.Duration)) : State :=
  {| main_ := mainAt sampleServer sampleLog "" Waiting;
     goroutines := [serverAt sampleServer sampleLog Serving];
     listening := true; inShutdown := false;
     inflight := requests;
     notified := [SIGINT; SIGTERM]; ch := [SIGTERM];
     history := []; exit := None |}.

(** An environment that sets the four variables. *)
Definition sampleEnv : gmap string string :=
  <["APP_SYSTEM_CODE" := "upp-cm"]>
    (<["APP_NAME" := "Content Manager"]>
       (<["APP_PORT" := "9000"]> (<["LOG_LEVEL" := "DEBUG"]> ∅))).

(** ** What the history of a run shows *)

(** The binds the history records, with the address and the result of
    each. *)
Fixpoint listens (h : list Event) : list (string * option error) :=
  match h with
  | [] => []
  | EvListen addr r :: rest => (addr, r) :: listens rest
  | _ :: rest => listens rest
  end.

(** The main goroutine has taken a signal off the channel. *)
Definition received (a : MainAt) : bool :=
  match a with
  | Stopping | Closing | Draining | Failing | Exiting | Returned => true
  | _ => false
  end.

(** The listener goroutine has not yet asked for the port. *)
Definition unbound (s : ServerAt) : bool :=
  match s with
  | Checking | Binding => true
  | _ => false
  end.

(** The two lines [main.go] logs as fatal: a bind or an accept loop that
    failed with an error other than [ErrServerClosed], and a shutdown that
    ran out of time. *)
Definition fatalLine (msg : string) : Prop :=
  (∃ e, error_eqb e ErrServerClosed = false
        ∧ msg = "http server failed to start: " +:+ Error e)
  ∨ msg = "failed to gracefully shutdown the server: "
          +:+ Error DeadlineExceeded.

(** How a process that has ended may have ended, given its history. *)
Definition ended (log : logger.UPPLogger) (σ : State) : Prop :=
  match exit σ with
  | None => True
  | Some (Code c) =>
      (c = 0 ∧ EvDrained None ∈ history σ ∧ ∃ sig, EvRecv sig ∈ history σ)
      ∨ (c = 1 ∧ ∃ msg, fatalLine msg
                        ∧ EvLog log logger.FatalLevel msg ∈ history σ)
      ∨ (c = 2 ∧ history σ = [EvExit 2])
  | Some (Killed _) => EvNotify ∉ history σ
  end.

Section Sound.

Variable server : Server.
Variable log : logger.UPPLogger.
Variable startLine : string.

(** The process is at [a] and [s], and its history is one that leads
    there. *)
Definition sound (a : MainAt) (s : ServerAt) (σ : State) : Prop :=
  main_ σ = mainAt server log startLine a
  ∧ goroutines σ = (if launched a then [serverAt server log s] else [])
  ∧ (launched a = false → s = Checking)
  ∧ notified σ = (if relaying a then [SIGINT; SIGTERM] else [])
  ∧ inShutdown σ = shutdownCalled a
  ∧ (EvPanic ∉ history σ)
  ∧ (length (listens (history σ)) ≤ 1)%nat
  ∧ (∀ addr r, (addr, r) ∈ listens (history σ) → addr = Addr server)
  ∧ (unbound s = true → listens (history σ) = [])
  ∧ (received a = true → ∃ sig, EvRecv sig ∈ history σ)
  ∧ (EvShutdown ∈ history σ → shutdownCalled a = true)
  ∧ (EvNotify ∈ history σ → relaying a = true)
  ∧ (a = Returned → exit σ = None → EvDrained None ∈ history σ)
  ∧ (a = Exiting ∨ s = Dying →
     ∃ msg, fatalLine msg ∧ EvLog log logger.FatalLevel msg ∈ history σ)
  ∧ (∀ e, s = Fatal e → error_eqb e ErrServerClosed = false)
  ∧ (∀ l lvl msg, EvLog l lvl msg ∈ history σ → l = log)
  ∧ (a = Rejected → history σ = [])
  ∧ (a = Ended → exit σ = Some (Code 2))
  ∧ ended log σ.

End Sound.

(** The application after the four declarations of [main]. *)
Definition declarations (env : gmap string string) : cli.Cli :=
  let app := cli.App "cm-go-service" appDescription in
  let app :=
    (cli.String env app
       {| cli.Name := "app-system-code"; cli.Value := "cm-go-service";
          cli.Desc := "system Code of the application";
          cli.EnvVar := "APP_SYSTEM_CODE" |}).1 in
  let app :=
    (cli.String env app
       {| cli.Name := "app-name"; cli.Value := "cm-go-service";
          cli.Desc := "application name";
          cli.EnvVar := "APP_NAME" |}).1 in
  let app :=
    (cli.String env app
       {| cli.Name := "port"; cli.Value := "8080";
          cli.Desc := "port to listen on";
          cli.EnvVar := "APP_PORT" |}).1 in
  (cli.String env app
     {| cli.Name := "log-level"; cli.Value := "INFO";
        cli.Desc := "logging level (DEBUG, INFO, WARN, ERROR)";
        cli.EnvVar := "LOG_LEVEL" |}).1.

(** ** Sample runs *)

Definition sampleFlags : list (string * string) :=
  [("port", "7000"); ("log-level", "ERROR")].

(** The listener binds, a request that needs one second arrives, a SIGTERM
    is delivered and the main goroutine runs to its end. *)
Definition cleanRun : list Label :=
  [RunMain Quiet; RunMain Quiet; RunMain Quiet;
   RunGo 0 Quiet; RunGo 0 (Bind None);
   Arrive (Some (1 * time.Second)); Deliver SIGTERM;
   RunMain Quiet; RunMain Quiet; RunMain Quiet; RunMain Quiet;
   RunGo 0 Quiet; RunMain Quiet].

(** The port is taken. *)
Definition failedBindRun : list Label :=
  [RunMain Quiet; RunMain Quiet; RunGo 0 Quiet;
   RunGo 0 (Bind (Some (OpError "listen tcp :7000: bind: address already in use")));
   RunGo 0 Quiet; RunGo 0 Quiet].

(** The main goroutine gets to the signal channel. *)
Definition waitingRun : list Label :=
  [RunMain Quiet; RunMain Quiet; RunMain Quiet].


(** * Properties *)

(** ** Routing: what [registerEndpoints] builds *)

Section Routing.

Variable TestHandler : http.HandlerFunc.
Variable BuildInfoHandler : http.HandlerFunc.
Variable healthHandler : HealthService → http.HandlerFunc.
Variable gtgHandler : HealthService → http.HandlerFunc.

Abbreviation wrapped := (wrappedServicesRouter TestHandler).
Abbreviation register :=
  (registerEndpoints TestHandler BuildInfoHandler healthHandler gtgHandler).

Lemma Handle_fresh mx pattern h :
  pattern ≠ "" →
  ServeMux.m mx !! pattern = None →
  ServeMux.Handle mx pattern h =
    Some {| ServeMux.m := <[pattern := h]> (ServeMux.m mx);
            ServeMux.es := if path.endsInSlash pattern
                           then ServeMux.appendSorted (ServeMux.es mx) (pattern, h)
                           else ServeMux.es mx |}.
Proof.
  intros Hne Hfresh. unfold ServeMux.Handle.
  destruct (String.eqb_spec pattern "") as [->|_]; [done|].
  by rewrite Hfresh.
Qed.

(** The four registrations succeed: no pattern is empty or repeated. *)
Lemma registerEndpoints_mux hs log :
  register hs log =
    Some {| ServeMux.m :=
              <["/" := wrapped log]>
                (<[status.BuildInfoPath := Func BuildInfoHandler]>
                   (<[status.GTGPath := Func (gtgHandler hs)]>
                      (<["/__health" := Func (healthHandler hs)]> ∅)));
            ServeMux.es := [("/", wrapped log)] |}.
Proof.
  unfold registerEndpoints, ServeMux.HandleFunc,
    status.GTGPath, status.BuildInfoPath.
  repeat (rewrite Handle_fresh;
          [ cbn [mbind option_bind ServeMux.m ServeMux.es ServeMux.New]
          | done
          | cbn [ServeMux.m ServeMux.New];
            by rewrite ?lookup_insert_ne, ?lookup_empty by done ]).
  reflexivity.
Qed.

(** The handler an incoming path is dispatched to. *)
Lemma lookup_registered hs log mx path :
  register hs log = Some mx →
  ServeMux.lookup mx path =
    match operationalHandler BuildInfoHandler healthHandler gtgHandler hs path with
    | Some f => Some (Func f)
    | None => if rooted path then Some (wrapped log) else None
    end.
Proof.
  rewrite registerEndpoints_mux. intros [= <-].
  unfold ServeMux.lookup, operationalHandler, rooted,
    status.GTGPath, status.BuildInfoPath.
  cbn [ServeMux.m ServeMux.es].
  destruct (String.eqb_spec path "/__health") as [->|Hh].
  { by rewrite !lookup_insert_ne, lookup_insert_eq by done. }
  destruct (String.eqb_spec path "/__gtg") as [->|Hg].
  { by rewrite !lookup_insert_ne, lookup_insert_eq by done. }
  destruct (String.eqb_spec path "/__build-info") as [->|Hb].
  { by rewrite lookup_insert_ne, lookup_insert_eq by done. }
  destruct (decide (path = "/")) as [->|Hr].
  { by rewrite lookup_insert_eq. }
  rewrite !lookup_insert_ne, lookup_empty by done.
  cbn. by destruct (String.prefix "/" path).
Qed.

Lemma operationalHandler_None hs path :
  operational path = false →
  operationalHandler BuildInfoHandler healthHandler gtgHandler hs path = None.
Proof.
  unfold operational, operationalHandler. intros H.
  apply orb_false_elim in H as [H Hb]. apply orb_false_elim in H as [Hh Hg].
  by rewrite Hh, Hg, Hb.
Qed.

(** Serving through the wrapped services router: the client sees the
    router's run cut at the budget, the logging and metrics layers record
    the router's own run. *)
Lemma serve_wrapped log req :
  let req' := http.WithTimeout req httpHandlersTimeout in
  let inner := mux.serve (servicesRouter TestHandler) req' in
  http.ServeHTTP (wrapped log) req =
    {| http.run := http.timeoutRun httpHandlersTimeout "" inner;
       http.trace := requestLog req' inner ++ requestTimer req' inner |}.
Proof. reflexivity. Qed.

(** What the services router matches. *)
Lemma Match_servicesRouter req :
  mux.Match (servicesRouter TestHandler) req =
    if String.eqb "/test" (http.Path req) then
      if String.eqb (http.Method req) "GET" then mux.Matched TestHandler
      else mux.ErrMethodMismatch
    else mux.ErrNotFound.
Proof.
  unfold mux.Match, servicesRouter, mux.Methods, mux.HandleFunc.
  cbn -[String.eqb].
  destruct (String.eqb "/test" (http.Path req)); [|done].
  unfold mux.methodMatches, mux.matchInArray. cbn -[String.eqb].
  by destruct (String.eqb (http.Method req) "GET").
Qed.

(** No path is redirected to the same path with a slash added: the one
    pattern that ends in a slash is [/]. *)
Lemma endsInSlash_append p : path.endsInSlash (p +:+ "/") = true.
Proof.
  unfold path.endsInSlash.
  induction p as [|c r IH]; [done|].
  destruct r; [done|exact IH].
Qed.

Lemma shouldRedirect_registered hs log mx p :
  register hs log = Some mx →
  ServeMux.shouldRedirect mx p = false.
Proof.
  rewrite registerEndpoints_mux. intros [= <-].
  unfold ServeMux.shouldRedirect. cbn [ServeMux.m].
  destruct (_ !! p); [done|].
  destruct (String.eqb_spec p "") as [|Hp]; [done|].
  destruct (_ !! (p +:+ "/")) eqn:E; [|done].
  exfalso. apply mk_is_Some in E.
  unfold status.GTGPath, status.BuildInfoPath in E.
  rewrite !lookup_insert_is_Some, lookup_empty in E.
  pose proof (endsInSlash_append p) as Hs.
  destruct E as [E|[_ [E|[_ [E|[_ [E|[_ E]]]]]]]];
    try (rewrite <- E in Hs; discriminate Hs).
  - destruct p as [|c [|c' r]]; [done|discriminate E|discriminate E].
  - by destruct E.
Qed.

Lemma rooted_append p : rooted ("/" +:+ p) = true.
Proof. by destruct p. Qed.

(** A clean path is rooted. *)
Lemma cleanPath_rooted p : rooted (http.cleanPath p) = true.
Proof.
  unfold http.cleanPath, path.cleanPath, path.Clean.
  destruct (String.eqb p ""); [reflexivity|].
  cbv zeta. destruct (path.endsInSlash _ && _); [|apply rooted_append].
  match goal with
  | |- rooted (("/" +:+ ?x) +:+ "/") = true =>
      exact (rooted_append (x +:+ "/"))
  end.
Qed.

Lemma clean_rooted p : http.clean p = true → rooted p = true.
Proof.
  unfold http.clean. intros H%String.eqb_eq.
  rewrite <- H. apply cleanPath_rooted.
Qed.

(** The handler of the pattern that matches: the handler bound to an
    operational path answers alone; every other rooted path goes to the
    wrapped services router. *)
Lemma dispatch_registered hs log mx req :
  register hs log = Some mx →
  ServeMux.dispatch mx req =
    match operationalHandler BuildInfoHandler healthHandler gtgHandler hs
            (http.Path req) with
    | Some f => {| http.run := f req; http.trace := [] |}
    | None =>
        if rooted (http.Path req) then http.ServeHTTP (wrapped log) req
        else ServeMux.answer http.NotFound
    end.
Proof.
  intros Hmx. unfold ServeMux.dispatch.
  rewrite (lookup_registered _ _ _ _ Hmx).
  destruct operationalHandler; [done|].
  by destruct (rooted _).
Qed.

(** What the router does with a request, by its target, its method and
    the form of its path. *)
Lemma serve_cases hs log mx req :
  register hs log = Some mx →
  http.ServeHTTP mx req =
    if String.eqb (http.Path req) "*" then
      ServeMux.answer
        (http.Returns 0 {| http.Code := http.StatusBadRequest;
                           http.Body := "" |})
    else if String.eqb (http.Method req) "CONNECT"
            || http.clean (http.Path req)
    then ServeMux.dispatch mx req
    else ServeMux.redirect req (http.cleanPath (http.Path req)).
Proof.
  intros Hmx.
  unfold http.ServeHTTP at 1, ServeMux_Handler, ServeMux.serve, http.clean.
  cbv zeta. rewrite !(shouldRedirect_registered _ _ _ _ Hmx).
  destruct (String.eqb (http.Path req) "*"); [done|].
  destruct (String.eqb (http.Method req) "CONNECT"); [done|].
  by destruct (String.eqb (http.cleanPath (http.Path req)) (http.Path req)).
Qed.

(** A request whose path is clean: the handler bound to an operational
    path answers alone; every other path goes to the wrapped services
    router. *)
Lemma serve_registered hs log mx req :
  register hs log = Some mx →
  http.clean (http.Path req) = true →
  http.ServeHTTP mx req =
    match operationalHandler BuildInfoHandler healthHandler gtgHandler hs
            (http.Path req) with
    | Some f => {| http.run := f req; http.trace := [] |}
    | None => http.ServeHTTP (wrapped log) req
    end.
Proof.
  intros Hmx Hclean.
  rewrite (serve_cases _ _ _ _ Hmx), Hclean, orb_true_r.
  rewrite (dispatch_registered _ _ _ _ Hmx), (clean_rooted _ Hclean).
  destruct (String.eqb_spec (http.Path req) "*") as [Hstar|_]; [|done].
  rewrite Hstar in Hclean. discriminate Hclean.
Qed.





(** C10: [/test] is matched for GET alone.  With any other method the
    router reports a method mismatch, the answer is method not allowed
    (not: not found), and it does not depend on [TestHandler], which is
    not called. *)
Theorem test_route_other_method_not_allowed hs log mx req :
  register hs log = Some mx →
  http.Path req = "/test" →
  http.Method req ≠ "GET" →
  mux.Match (servicesRouter TestHandler)
    (http.WithTimeout req httpHandlersTimeout) = mux.ErrMethodMismatch
  ∧ http.ServeHTTP mx req =
      {| http.run :=
           http.Returns 0 {| http.Code := http.StatusMethodNotAllowed;
                             http.Body := "" |};
         http.trace :=
           [http.Logged (http.Method req) "/test" http.StatusMethodNotAllowed 0;
            http.Timed (http.Method req) 0] |}.
Proof.
  intros Hmx Hpath Hmeth.
  assert (mux.Match (servicesRouter TestHandler)
            (http.WithTimeout req httpHandlersTimeout) = mux.ErrMethodMismatch)
    as HM.
  { rewrite Match_servicesRouter. cbn [http.WithTimeout http.Path http.Method].
    rewrite Hpath. cbn -[String.eqb].
    by destruct (String.eqb_spec (http.Method req) "GET"). }
  split; [exact HM|].
  rewrite serve_registered with (hs := hs) (log := log);
    [|done|by rewrite Hpath].
  rewrite Hpath. cbn -[http.ServeHTTP wrappedServicesRouter].
  rewrite serve_wrapped. unfold mux.serve.
  cbn [http.WithTimeout http.Path]. rewrite Hpath.
  change (mux.cleanPath "/test") with "/test". cbn [String.eqb negb].
  change (String.eqb "/test" "/test") with true. cbn [negb].
  rewrite HM. cbn. by rewrite Hpath.
Qed.

(** C3, as the code has it: on a clean path served by the services
    router the timeout layer hands the router a request whose context is
    cancelled after 14 seconds; when the router has not finished by then,
    the client is answered with service unavailable at that moment and
    nothing panics; when the router finishes (returns or panics) before,
    the client sees exactly what the router did.  The work in flight is not
    stopped: whenever the router returns, at the budget or after it too,
    the logging and metrics layers record its own answer and the time it
    took. *)
Theorem timeout_layer_budget hs log mx req :
  register hs log = Some mx →
  http.clean (http.Path req) = true →
  operational (http.Path req) = false →
  let req' := http.WithTimeout req httpHandlersTimeout in
  let inner := mux.serve (servicesRouter TestHandler) req' in
  httpHandlersTimeout = 14 * time.Second
  ∧ (∃ d, http.Deadline req' = Some d ∧ d ≤ 14 * time.Second)
  ∧ http.run (http.ServeHTTP mx req) =
      (if http.finishesBefore (14 * time.Second) inner then inner
       else http.Returns (14 * time.Second)
              {| http.Code := http.StatusServiceUnavailable;
                 http.Body := http.errorBody "" |})
  ∧ (∀ d resp,
       inner = http.Returns d resp →
       http.trace (http.ServeHTTP mx req) =
         [http.Logged (http.Method req) (http.Path req) (http.Code resp) d;
          http.Timed (http.Method req) d]).
Proof.
  intros Hmx Hclean Hop req' inner.
  split; [reflexivity|]. split.
  { unfold req', http.WithTimeout. cbn [http.Deadline].
    destruct (http.Deadline req) as [d|];
      [exists (Z.min d httpHandlersTimeout) | exists httpHandlersTimeout];
      (split; [reflexivity|]); [apply Z.le_min_r | reflexivity]. }
  rewrite (serve_registered hs log mx req Hmx Hclean).
  rewrite operationalHandler_None by done.
  rewrite serve_wrapped. split; [reflexivity|].
  intros d resp Hinner. cbn [http.trace].
  fold req' inner. by rewrite Hinner.
Qed.

(** C1, as the code has it: the handler registered under [/] is the
    services router wrapped first by the logging layer, then by the metrics
    layer, then by the timeout layer, which is therefore the outermost.
    The client sees the router's run cut at the budget; the logging and
    metrics layers sit inside the timeout layer and record the router's
    own run, whatever the timeout layer answers. *)
Theorem middleware_order hs log :
  ∃ mx h,
    register hs log = Some mx
    ∧ ServeMux.lookup mx "/" = Some h
    ∧ layers h = [TimeoutLayer; MetricsLayer; LoggingLayer]
    ∧ base h = ServicesRouter (servicesRouter TestHandler)
    ∧ ∀ req,
        let req' := http.WithTimeout req httpHandlersTimeout in
        let inner := mux.serve (servicesRouter TestHandler) req' in
        http.ServeHTTP h req =
          {| http.run := http.timeoutRun httpHandlersTimeout "" inner;
             http.trace := requestLog req' inner ++ requestTimer req' inner |}.
Proof.
  eexists _, (wrapped log). split; [apply registerEndpoints_mux|].
  split.
  { by rewrite (lookup_registered hs log _ "/" (registerEndpoints_mux hs log)). }
  repeat split.
Qed.

End Routing.

(** ** Configuration *)

Section Configuration.

Variable TestHandler : http.HandlerFunc.
Variable BuildInfoHandler : http.HandlerFunc.
Variable healthHandler : HealthService → http.HandlerFunc.
Variable gtgHandler : HealthService → http.HandlerFunc.

Abbreviation register' :=
  (registerEndpoints TestHandler BuildInfoHandler healthHandler gtgHandler).
Abbreviation main' :=
  (main TestHandler BuildInfoHandler healthHandler gtgHandler).

Lemma deref_set app n v n' :
  cli.deref (cli.set app n v) n' =
    if String.eqb n n' then v else cli.deref app n'.
Proof.
  unfold cli.deref, cli.set. cbn [cli.cells].
  destruct (String.eqb_spec n n') as [->|Hne].
  - by rewrite lookup_insert_eq.
  - by rewrite lookup_insert_ne.
Qed.

(** After the command line is read a cell holds the last value given to
    its option there, and what it held before when none was given. *)
Lemma parse_deref flags : ∀ app app' n,
  cli.parse app flags = Some app' →
  cli.deref app' n = default (cli.deref app n) (flagValue flags n).
Proof.
  induction flags as [|[n' v] rest IH]; intros app app' n.
  - by intros [= ->].
  - cbn [cli.parse flagValue].
    destruct (cli.declared app n'); [|done].
    intros Hp. rewrite (IH _ _ n Hp), deref_set.
    destruct (flagValue rest n); [done|].
    by destruct (String.eqb n' n).
Qed.

Lemma parse_accepts flags : ∀ app,
  Forall (λ f, cli.declared app f.1 = true) flags →
  is_Some (cli.parse app flags).
Proof.
  induction flags as [|[n' v] rest IH]; intros app Hall.
  - by eexists.
  - inversion Hall as [|? ? Hd Hrest]; subst. cbn in Hd |- *.
    rewrite Hd. by apply IH.
Qed.

(** A cell right after its declaration. *)
Lemma Getenv_configured env var dflt :
  (if String.eqb (cli.Getenv env var) "" then dflt else cli.Getenv env var)
  = configured env var dflt.
Proof.
  unfold cli.Getenv, configured. by destruct (env !! var).
Qed.

(** What an option comes to before the command line is read. *)
Lemma configured_set env var dflt v :
  env !! var = Some v → v ≠ "" → configured env var dflt = v.
Proof.
  intros Hv Hne. unfold configured. rewrite Hv.
  by destruct (String.eqb_spec v "").
Qed.

Lemma configured_unset env var dflt :
  env !! var = None ∨ env !! var = Some "" → configured env var dflt = dflt.
Proof. unfold configured. by intros [->| ->]. Qed.

(** [main] up to the start-up line, when the command line gives declared
    options only: each of system code, name and port is the value of its
    option on the command line, else the one of its environment variable;
    the logger was built before the command line was read. *)
Lemma main_starting env flags :
  Forall (λ f, f.1 ∈ optionNames) flags →
  let code := default (configured env "APP_SYSTEM_CODE" "cm-go-service")
                      (flagValue flags "app-system-code") in
  let name := default (configured env "APP_NAME" "cm-go-service")
                      (flagValue flags "app-name") in
  let port := default (configured env "APP_PORT" "8080")
                      (flagValue flags "port") in
  let log := logger.NewUPPLogger (configured env "APP_NAME" "cm-go-service")
                                 (configured env "LOG_LEVEL" "INFO") in
  ∃ router,
    register' (NewHealthService code name appDescription) log = Some router
    ∧ main' env flags =
        mainAt (newHTTPServer port router) log
          ("starting with system code: " +:+ code
           +:+ ", app name: " +:+ name +:+ ", port: " +:+ port)
          Starting.
Proof.
  intros Hflags code name port log.
  eexists. split; [apply registerEndpoints_mux|].
  unfold main, Run. cbn [cli.String cli.Name cli.Value cli.EnvVar cli.App
                         cli.name cli.desc cli.options cli.cells app].
  rewrite !Getenv_configured.
  match goal with
  | |- context [cli.parse ?a flags] => set (app4 := a)
  end.
  destruct (parse_accepts flags app4) as [app' Happ'].
  { eapply Forall_impl; [exact Hflags|]. intros [n v] Hn. cbn in Hn |- *.
    unfold optionNames in Hn.
    repeat (apply elem_of_cons in Hn as [->|Hn]; [reflexivity|]).
    by apply elem_of_nil in Hn. }
  rewrite Happ'. cbn [notNil].
  unfold action.
  rewrite !(parse_deref _ _ _ _ Happ').
  assert (cli.deref app4 "app-system-code"
          = configured env "APP_SYSTEM_CODE" "cm-go-service") as ->.
  { unfold cli.deref, app4. cbn [cli.cells].
    by rewrite !lookup_insert_ne, lookup_insert_eq by done. }
  assert (cli.deref app4 "app-name"
          = configured env "APP_NAME" "cm-go-service") as ->.
  { unfold cli.deref, app4. cbn [cli.cells].
    by rewrite !lookup_insert_ne, lookup_insert_eq by done. }
  assert (cli.deref app4 "port" = configured env "APP_PORT" "8080") as ->.
  { unfold cli.deref, app4. cbn [cli.cells].
    by rewrite !lookup_insert_ne, lookup_insert_eq by done. }
  assert (cli.deref app4 "log-level" = configured env "LOG_LEVEL" "INFO") as ->.
  { unfold cli.deref, app4. cbn [cli.cells]. by rewrite lookup_insert_eq. }
  fold code name port log.
  rewrite registerEndpoints_mux. reflexivity.
Qed.

End Configuration.

(** ** The life of the process *)

(** Runs the process on a state given field by field, leaving the data of
    the state (lists, strings, durations) as they are. *)
Ltac run_process :=
  cbv beta iota zeta delta
    [steps runSolo replicate step exec setMain setGo setCh setInflight
     setListening setInShutdown setNotified spawn record terminate
     mbind option_bind
     startHTTPServer stopHTTPServer waitForSignal ListenAndServe Shutdown
     Fatalf notNil differs from_option negb andb
     exit main_ ch inflight history goroutines listening inShutdown notified].

Lemma terminated_stuck l σ st : exit σ = Some st → step l σ = None.
Proof. intros H. unfold step. by rewrite H. Qed.

Section Lifecycle.

Variable server : Server.
Variable log : logger.UPPLogger.
Variable startLine : string.

Abbreviation srvAt := (serverAt server log).
Abbreviation mAt := (mainAt server log startLine).
Abbreviation At := (at_ server log startLine).

(** An operation of the listener goroutine leaves it at one of its points
    and touches nothing the main goroutine's point is read from. *)
Lemma exec_serverAt s o σ p' σ' :
  exec o (srvAt s) σ = Some (p', σ') →
  (∃ s', p' = srvAt s')
  ∧ main_ σ' = main_ σ
  ∧ goroutines σ' = goroutines σ
  ∧ notified σ' = notified σ
  ∧ inShutdown σ' = inShutdown σ.
Proof.
  destruct s; cbn.
  - intros [= <- <-]. split; [|done].
    destruct (inShutdown σ); [by exists Finished | by exists Binding].
  - destruct o as [|[e|]|]; try done; intros [= <- <-]; (split; [|done]).
    + cbn. destruct (error_eqb e ErrServerClosed);
        [by exists Finished | by exists (Fatal e)].
    + by exists Serving.
  - destruct (inShutdown σ) eqn:Hs.
    + intros [= <- <-]. split; [by exists Finished|]. by rewrite <- Hs.
    + destruct o as [| |e]; try done. intros [= <- <-]. split; [|done].
      cbn. destruct (error_eqb e ErrServerClosed);
        [by exists Finished | by exists (Fatal e)].
  - intros [= <- <-]. split; [by exists Dying|done].
  - intros [= <- <-]. split; [by exists Finished|done].
  - done.
Qed.

(** Every step keeps the process at a point of the main goroutine. *)
Lemma step_at l σ σ' a :
  At a σ → step l σ = Some σ' → ∃ a', At a' σ'.
Proof.
  intros (Hm & Hg & Hn & Hs) Hstep. unfold step in Hstep.
  destruct (exit σ); [done|].
  destruct l as [o|i o|sig|d].
  - (* the main goroutine *)
    rewrite Hm in Hstep.
    destruct a; cbn in Hstep;
      try (injection Hstep as <-).
    + exists Spawning. by repeat split.
    + exists Registering. repeat split; cbn; try done.
      cbn in Hg. rewrite Hg. by exists Checking.
    + exists Waiting. by repeat split.
    + destruct (ch σ) as [|c rest] eqn:Hc; [done|].
      injection Hstep as <-. exists Stopping. by repeat split.
    + exists Closing. by repeat split.
    + exists Draining. by repeat split.
    + destruct (forallb _ _).
      * exists Returned. by repeat split.
      * exists Failing. by repeat split.
    + exists Exiting. by repeat split.
    + exists Returned. by repeat split.
    + exists Returned. by repeat split.
    + exists Ended. by repeat split.
    + exists Ended. by repeat split.
  - (* a spawned goroutine *)
    destruct (goroutines σ !! i) as [p|] eqn:Hi; [|done].
    cbn in Hstep.
    destruct (launched a) eqn:Hl.
    + destruct Hg as [s Hg]. rewrite Hg in Hi.
      destruct i as [|i]; [|done]. injection Hi as <-.
      destruct (exec o (srvAt s) σ) as [[p' σ1]|] eqn:He; [|done].
      injection Hstep as <-.
      apply exec_serverAt in He as ([s' ->] & Hm' & Hg' & Hn' & Hs').
      exists a. unfold at_. cbn. rewrite Hm', Hg', Hn', Hs', Hl, Hg.
      repeat split; try done. by exists s'.
    + by rewrite Hg in Hi.
  - (* a signal *)
    destruct (existsb _ _); injection Hstep as <-; exists a; by repeat split.
  - (* a request *)
    destruct (_ && _); [|done]. injection Hstep as <-.
    exists a; by repeat split.
Qed.

Lemma steps_at ls : ∀ σ σ' a,
  At a σ → steps ls σ = Some σ' → ∃ a', At a' σ'.
Proof.
  induction ls as [|l ls IH]; intros σ σ' a Ha.
  - intros [= <-]. by exists a.
  - cbn. destruct (step l σ) as [σ1|] eqn:H1; [|done]. cbn.
    destruct (step_at _ _ _ _ Ha H1) as [a1 Ha1]. by apply IH with a1.
Qed.

Lemma filter_slow_nonempty t (l : list (option time.Duration)) :
  forallb (completesWithin t) l = false →
  filter (λ d, completesWithin t d = false) l ≠ [].
Proof.
  induction l as [|d l IH]; [done|]. cbn [forallb].
  destruct (completesWithin t d) eqn:Hd; cbn [andb]; intros H.
  - rewrite filter_cons_False by (by rewrite Hd). by apply IH.
  - by rewrite filter_cons_True.
Qed.

(** C4: the main goroutine waits for the signal and then runs
    [stopHTTPServer], with nothing else running in between.  The context
    given to [Shutdown] lasts 30 seconds.  When every request in flight
    completes within it, [Shutdown] returns no error, [main] returns and
    the process ends with status 0.  Otherwise [Shutdown] gives up with
    requests still in flight, the failure is logged as fatal and the
    process ends with status 1, which closes what was left open. *)
Theorem shutdown_within_grace_period σ sig rest :
  exit σ = None →
  main_ σ = mAt Waiting →
  ch σ = sig :: rest →
  let grace := 30 * time.Second in
  let closing := EvLog log logger.InfoLevel "http server is shutting down..." in
  if forallb (completesWithin grace) (inflight σ) then
    ∃ σ', steps (replicate 5 (RunMain Quiet)) σ = Some σ'
          ∧ exit σ' = Some (Code 0)
          ∧ inflight σ' = []
          ∧ history σ' =
              (history σ ++ [EvRecv sig; closing; EvShutdown; EvDrained None])%list
  else
    ∃ σ1 σ', steps (replicate 4 (RunMain Quiet)) σ = Some σ1
             ∧ exit σ1 = None
             ∧ inflight σ1 =
                 filter (λ d, completesWithin grace d = false) (inflight σ)
             ∧ inflight σ1 ≠ []
             ∧ steps (replicate 2 (RunMain Quiet)) σ1 = Some σ'
             ∧ exit σ' = Some (Code 1)
             ∧ inflight σ' = []
             ∧ history σ' =
                 (history σ ++
                  [EvRecv sig; closing; EvShutdown;
                   EvDrained (Some DeadlineExceeded);
                   EvLog log logger.FatalLevel
                     "failed to gracefully shutdown the server: context deadline exceeded";
                   EvExit 1])%list.
Proof.
  intros Hexit Hmain Hch grace closing.
  destruct σ as [m g li sh fl nt c h e].
  cbn in Hexit, Hmain, Hch |- *. subst m c e.
  destruct (forallb (completesWithin grace) fl) eqn:Hall.
  - eexists. run_process. fold grace. rewrite Hall. run_process.
    split; [reflexivity|]. split; [reflexivity|]. split; [reflexivity|].
    by rewrite <- !app_assoc.
  - eexists _, _. run_process. fold grace. rewrite Hall. run_process.
    split; [reflexivity|]. split; [reflexivity|]. split; [reflexivity|].
    split; [by apply filter_slow_nonempty|].
    split; [reflexivity|]. split; [reflexivity|]. split; [reflexivity|].
    by rewrite <- !app_assoc.
Qed.

(** C5: when the bind fails, [startHTTPServer] logs the failure as fatal
    and ends the process with status 1.  The listener was asked to bind
    once; what follows the call of [startHTTPServer] never runs, and
    nothing runs in the process afterwards. *)
Theorem bind_failure_is_fatal k σ msg :
  inShutdown σ = false →
  ∃ σ',
    runSolo [Quiet; Bind (Some (OpError msg)); Quiet; Quiet]
      (startHTTPServer server log k) σ = Some (Done, σ')
    ∧ exit σ' = Some (Code 1)
    ∧ history σ' =
        (history σ ++
         [EvListen (Addr server) (Some (OpError msg));
          EvLog log logger.FatalLevel ("http server failed to start: " +:+ msg);
          EvExit 1])%list
    ∧ ∀ l, step l σ' = None.
Proof.
  intros Hs. eexists. cbn. rewrite Hs. cbn.
  split; [reflexivity|]. cbn. split; [reflexivity|].
  split; [by rewrite <- !app_assoc|].
  intros l. reflexivity.
Qed.

(** C9: [startHTTPServer] returns to its caller, with nothing logged and
    the process alive, when [ListenAndServe] returns [ErrServerClosed]:
    that is what it returns once [Shutdown] has been called, be it before
    the goroutine got to bind or while it serves.  Any other error that
    ends the serving is fatal. *)
Theorem server_closed_is_not_fatal k σ0 :
  inShutdown σ0 = false →
  ∃ serving σ1,
    runSolo [Quiet; Bind None] (startHTTPServer server log k) σ0
      = Some (serving, σ1)
    ∧ listening σ1 = true
    ∧ (∀ σ o, inShutdown σ = true →
         exec o (startHTTPServer server log k) σ = Some (k, σ)
         ∧ exec o serving σ
             = Some (k, record (EvServeReturned ErrServerClosed) σ)
         ∧ exit (record (EvServeReturned ErrServerClosed) σ) = exit σ)
    ∧ (∀ σ e, inShutdown σ = false → e ≠ ErrServerClosed →
         ∃ σ', exec (AcceptFails e) serving σ
               = Some (Fatalf log ("http server failed to start: " +:+ Error e),
                       σ')).
Proof.
  intros Hs. eexists _, _. cbn. rewrite Hs. cbn.
  split; [reflexivity|]. split; [reflexivity|]. split.
  - intros σ o Hσ. cbn. rewrite Hσ. by cbn.
  - intros σ e Hσ He. cbn. rewrite Hσ. eexists.
    assert (error_eqb e ErrServerClosed = false) as ->; [|reflexivity].
    by destruct e.
Qed.

End Lifecycle.

(** ** The order of start-up *)

Section Startup.

Variable TestHandler : http.HandlerFunc.
Variable BuildInfoHandler : http.HandlerFunc.
Variable healthHandler : HealthService → http.HandlerFunc.
Variable gtgHandler : HealthService → http.HandlerFunc.

Abbreviation main'' :=
  (main TestHandler BuildInfoHandler healthHandler gtgHandler).

(** The process starts at the first point of the action, or at the exit of
    a command line that does not parse. *)
Lemma main_at env flags :
  ∃ server log line a, at_ server log line a (start (main'' env flags)).
Proof.
  unfold main, Run.
  cbn [cli.String cli.Name cli.Value cli.EnvVar cli.App
       cli.name cli.desc cli.options cli.cells app].
  destruct (cli.parse _ flags) as [app'|].
  - unfold action. rewrite registerEndpoints_mux.
    eexists _, _, _, Starting. by repeat split.
  - exists (newHTTPServer "" ServeMux.New), sampleLog, "", Rejected.
    by repeat split.
Qed.

(** C7, as the code has it: whenever the main goroutine is blocked on the
    signal channel, and whenever [Shutdown] has been called, the goroutine
    that runs [startHTTPServer] has been launched and the two signals are
    relayed to the channel. *)
Theorem listener_launched_before_wait env flags σ :
  reachable (start (main'' env flags)) σ →
  ((∃ k, main_ σ = Recv k) →
     (∃ server log s, goroutines σ = [serverAt server log s])
     ∧ notified σ = [SIGINT; SIGTERM])
  ∧ (inShutdown σ = true →
     (∃ server log s, goroutines σ = [serverAt server log s])
     ∧ notified σ = [SIGINT; SIGTERM]).
Proof.
  intros [ls Hls].
  destruct (main_at env flags) as (server & log & line & a & Ha).
  destruct (steps_at _ _ _ _ _ _ _ Ha Hls) as [a' (Hm & Hg & Hn & Hs)].
  split.
  - intros [k Hk]. rewrite Hm in Hk.
    destruct a'; try discriminate Hk.
    cbn in Hg, Hn. destruct Hg as [s Hg]. split; [|done].
    by exists server, log, s.
  - intros Hsd. rewrite Hs in Hsd.
    destruct a'; try discriminate Hsd;
      cbn in Hg, Hn; destruct Hg as [s Hg]; (split; [|done]);
      by exists server, log, s.
Qed.

End Startup.

(** ** The properties at sample inputs *)





Lemma test_route_other_method_not_allowed_witness :
  ∃ mx,
    sampleRouter (respond 5 200 "test") = Some mx
    ∧ "POST" ≠ "GET"
    ∧ http.ServeHTTP mx (request "POST" "/test") =
        {| http.run := http.Returns 0 {| http.Code := 405; http.Body := "" |};
           http.trace := [http.Logged "POST" "/test" 405 0; http.Timed "POST" 0] |}.
Proof.
  eexists. split; [unfold sampleRouter; apply registerEndpoints_mux|]. split; [discriminate|].
  rewrite (proj2 (test_route_other_method_not_allowed (respond 5 200 "test") (respond 1 200 "build")
             (λ _, respond 2 200 "health") (λ _, respond 3 200 "OK") sampleHealth
                    sampleLog _ (request "POST" "/test")
                    (registerEndpoints_mux _ _ _ _ _ _) eq_refl
                    ltac:(discriminate))).
  reflexivity.
Defined.

Lemma timeout_layer_budget_witness :
  ∃ slow never quick,
    sampleRouter (respond (20 * time.Second) 200 "late") = Some slow
    ∧ sampleRouter stuck = Some never
    ∧ sampleRouter (respond (13 * time.Second) 200 "in time") = Some quick
    ∧ http.clean "/test" = true
    ∧ operational "/test" = false
    ∧ http.run (http.ServeHTTP slow (request "GET" "/test")) =
        http.Returns (14 * time.Second)
          {| http.Code := 503; http.Body := http.errorBody "" |}
    ∧ http.run (http.ServeHTTP never (request "GET" "/test")) =
        http.Returns (14 * time.Second)
          {| http.Code := 503; http.Body := http.errorBody "" |}
    ∧ http.ServeHTTP quick (request "GET" "/test") =
        {| http.run :=
             http.Returns (13 * time.Second)
               {| http.Code := 200; http.Body := "in time" |};
           http.trace :=
             [http.Logged "GET" "/test" 200 (13 * time.Second);
              http.Timed "GET" (13 * time.Second)] |}.
Proof.
  eexists _, _, _.
  split; [unfold sampleRouter; apply registerEndpoints_mux|].
  split; [unfold sampleRouter; apply registerEndpoints_mux|].
  split; [unfold sampleRouter; apply registerEndpoints_mux|].
  split; [reflexivity|]. split; [reflexivity|]. split; [|split].
  - rewrite (proj1 (proj2 (proj2
      (timeout_layer_budget (respond (20 * time.Second) 200 "late")
         (respond 1 200 "build")
         (λ _, respond 2 200 "health") (λ _, respond 3 200 "OK")
         sampleHealth sampleLog _
         (request "GET" "/test") (registerEndpoints_mux _ _ _ _ _ _)
         eq_refl eq_refl)))).
    reflexivity.
  - rewrite (proj1 (proj2 (proj2
      (timeout_layer_budget stuck
         (respond 1 200 "build")
         (λ _, respond 2 200 "health") (λ _, respond 3 200 "OK")
         sampleHealth sampleLog _
         (request "GET" "/test") (registerEndpoints_mux _ _ _ _ _ _)
         eq_refl eq_refl)))).
    reflexivity.
  - pose proof
      (timeout_layer_budget (respond (13 * time.Second) 200 "in time")
         (respond 1 200 "build")
         (λ _, respond 2 200 "health") (λ _, respond 3 200 "OK")
         sampleHealth sampleLog _
         (request "GET" "/test") (registerEndpoints_mux _ _ _ _ _ _)
         eq_refl eq_refl) as (_ & _ & Hrun & Htrace).
    specialize (Htrace _ _ eq_refl).
    destruct (http.ServeHTTP _ (request "GET" "/test")) as [r t].
    cbn [http.run http.trace] in Hrun, Htrace.
    rewrite Hrun, Htrace. reflexivity.
Defined.

(** C3 as stated does not hold: the timeout layer does not abort the work
    in flight.  A [TestHandler] that needs a minute is answered for with
    503 at 14 seconds, and runs on: the entry of the logging layer and the
    timing of the metrics layer, which are made when the handler returns,
    record its own 200 and its 60 seconds. *)
Lemma work_in_flight_not_aborted_counterexample :
  ∃ mx,
    sampleRouter (respond (60 * time.Second) 200 "done") = Some mx
    ∧ http.Deadline (http.WithTimeout (request "GET" "/test") httpHandlersTimeout)
      = Some (14 * time.Second)
    ∧ http.ServeHTTP mx (request "GET" "/test") =
        {| http.run :=
             http.Returns (14 * time.Second)
               {| http.Code := 503; http.Body := http.errorBody "" |};
           http.trace :=
             [http.Logged "GET" "/test" 200 (60 * time.Second);
              http.Timed "GET" (60 * time.Second)] |}.
Proof.
  eexists. split; [unfold sampleRouter; apply registerEndpoints_mux|].
  split; [reflexivity|].
  rewrite (serve_registered (respond (60 * time.Second) 200 "done")
             (respond 1 200 "build") (λ _, respond 2 200 "health")
             (λ _, respond 3 200 "OK") sampleHealth sampleLog _
             (request "GET" "/test") (registerEndpoints_mux _ _ _ _ _ _)
             eq_refl).
  reflexivity.
Qed.

(** C1 as stated does not hold: the outermost layer around the
    services router is the timeout layer, not the logging layer.  With a
    [TestHandler] that answers 200 after 20 seconds the client is answered
    503 at 14 seconds, while the logging and metrics layers record the 200
    and the 20 seconds of the handler: they do not see what the timeout
    layer answered. *)
Lemma logging_outermost_counterexample :
  ∃ mx h,
    sampleRouter (respond (20 * time.Second) 200 "late") = Some mx
    ∧ ServeMux.lookup mx "/test" = Some h
    ∧ layers h ≠ [LoggingLayer; MetricsLayer; TimeoutLayer]
    ∧ head (layers h) = Some TimeoutLayer
    ∧ last (layers h) = Some LoggingLayer
    ∧ http.ServeHTTP mx (request "GET" "/test") =
        {| http.run :=
             http.Returns (14 * time.Second)
               {| http.Code := 503; http.Body := http.errorBody "" |};
           http.trace :=
             [http.Logged "GET" "/test" 200 (20 * time.Second);
              http.Timed "GET" (20 * time.Second)] |}.
Proof.
  eexists _, _. split; [unfold sampleRouter; apply registerEndpoints_mux|].
  split.
  { rewrite (lookup_registered (respond (20 * time.Second) 200 "late") (respond 1 200 "build")
             (λ _, respond 2 200 "health") (λ _, respond 3 200 "OK") sampleHealth sampleLog _ "/test"
               (registerEndpoints_mux _ _ _ _ _ _)).
    reflexivity. }
  split; [discriminate|]. split; [reflexivity|]. split; [reflexivity|].
  rewrite (serve_registered (respond (20 * time.Second) 200 "late") (respond 1 200 "build")
             (λ _, respond 2 200 "health") (λ _, respond 3 200 "OK") sampleHealth sampleLog _
             (request "GET" "/test") (registerEndpoints_mux _ _ _ _ _ _) eq_refl).
  reflexivity.
Qed.

Lemma shutdown_within_grace_period_witness :
  (exit (sampleWaiting [Some (1 * time.Second)]) = None
   ∧ ch (sampleWaiting [Some (1 * time.Second)]) = [SIGTERM]
   ∧ ∃ σ', steps (replicate 5 (RunMain Quiet))
             (sampleWaiting [Some (1 * time.Second)]) = Some σ'
           ∧ exit σ' = Some (Code 0)
           ∧ inflight σ' = []
           ∧ history σ' =
               [EvRecv SIGTERM;
                EvLog sampleLog logger.InfoLevel "http server is shutting down...";
                EvShutdown; EvDrained None])
  ∧ ∃ σ1 σ', steps (replicate 4 (RunMain Quiet))
               (sampleWaiting [Some (1 * time.Second); None]) = Some σ1
             ∧ exit σ1 = None
             ∧ inflight σ1 = [None]
             ∧ inflight σ1 ≠ []
             ∧ steps (replicate 2 (RunMain Quiet)) σ1 = Some σ'
             ∧ exit σ' = Some (Code 1)
             ∧ inflight σ' = []
             ∧ history σ' =
                 [EvRecv SIGTERM;
                  EvLog sampleLog logger.InfoLevel "http server is shutting down...";
                  EvShutdown; EvDrained (Some DeadlineExceeded);
                  EvLog sampleLog logger.FatalLevel
                    "failed to gracefully shutdown the server: context deadline exceeded";
                  EvExit 1].
Proof.
  split.
  - split; [reflexivity|]. split; [reflexivity|].
    exact (shutdown_within_grace_period sampleServer sampleLog ""
             (sampleWaiting [Some (1 * time.Second)]) SIGTERM []
             eq_refl eq_refl eq_refl).
  - exact (shutdown_within_grace_period sampleServer sampleLog ""
             (sampleWaiting [Some (1 * time.Second); None]) SIGTERM []
             eq_refl eq_refl eq_refl).
Defined.

Lemma bind_failure_is_fatal_witness :
  inShutdown (start Done) = false
  ∧ ∃ σ',
      runSolo [Quiet; Bind (Some (OpError "listen tcp :8080: bind: address already in use"));
               Quiet; Quiet]
        (startHTTPServer sampleServer sampleLog Done) (start Done)
        = Some (Done, σ')
      ∧ exit σ' = Some (Code 1)
      ∧ history σ' =
          [EvListen ":8080"
             (Some (OpError "listen tcp :8080: bind: address already in use"));
           EvLog sampleLog logger.FatalLevel
             "http server failed to start: listen tcp :8080: bind: address already in use";
           EvExit 1]
      ∧ ∀ l, step l σ' = None.
Proof.
  split; [reflexivity|].
  exact (bind_failure_is_fatal sampleServer sampleLog Done (start Done)
           "listen tcp :8080: bind: address already in use" eq_refl).
Defined.

Lemma server_closed_is_not_fatal_witness :
  inShutdown (start Done) = false
  ∧ ∃ serving σ1,
      runSolo [Quiet; Bind None] (startHTTPServer sampleServer sampleLog Done)
        (start Done) = Some (serving, σ1)
      ∧ listening σ1 = true
      ∧ exec Quiet serving
          {| main_ := Done; goroutines := []; listening := false;
             inShutdown := true; inflight := []; notified := []; ch := [];
             history := [EvShutdown]; exit := None |}
        = Some (Done,
                {| main_ := Done; goroutines := []; listening := false;
                   inShutdown := true; inflight := []; notified := []; ch := [];
                   history := [EvShutdown; EvServeReturned ErrServerClosed];
                   exit := None |}).
Proof.
  split; [reflexivity|].
  destruct (server_closed_is_not_fatal sampleServer sampleLog Done (start Done)
              eq_refl) as (serving & σ1 & Hrun & Hl & Hclosed & _).
  exists serving, σ1. split; [exact Hrun|]. split; [exact Hl|].
  exact (proj1 (proj2
    (Hclosed {| main_ := Done; goroutines := []; listening := false;
                inShutdown := true; inflight := []; notified := []; ch := [];
                history := [EvShutdown]; exit := None |} Quiet eq_refl))).
Defined.

(** With the sample handlers, an empty environment and no option, three
    operations of the main goroutine bring it to the signal channel. *)
Lemma sample_reaches_wait :
  ∃ σ,
    steps [RunMain Quiet; RunMain Quiet; RunMain Quiet]
      (start (sampleMain ∅ [])) = Some σ
    ∧ (∃ k, main_ σ = Recv k)
    ∧ listening σ = false.
Proof.
  eexists. split; [vm_compute; reflexivity|].
  split; [eexists; reflexivity|reflexivity].
Qed.

Lemma listener_launched_before_wait_witness :
  ∃ σ,
    reachable (start (sampleMain ∅ [])) σ
    ∧ (∃ k, main_ σ = Recv k)
    ∧ (∃ server log s, goroutines σ = [serverAt server log s])
    ∧ notified σ = [SIGINT; SIGTERM].
Proof.
  destruct sample_reaches_wait as (σ & Hσ & Hk & _).
  unfold sampleMain in Hσ |- *.
  pose proof (ex_intro (λ ls, steps ls _ = Some σ) _ Hσ) as Hreach.
  exists σ. split; [exact Hreach|]. split; [exact Hk|].
  exact (proj1 (listener_launched_before_wait _ _ _ _ _ _ σ Hreach) Hk).
Defined.

(** C7 as stated does not hold: the main goroutine can be blocked on
    the signal channel, and [Shutdown] can have been called, while the
    listener goroutine has not yet bound the port. *)
Lemma listening_before_wait_counterexample :
  ∃ σ σ',
    steps [RunMain Quiet; RunMain Quiet; RunMain Quiet]
      (start (sampleMain ∅ [])) = Some σ
    ∧ (∃ k, main_ σ = Recv k)
    ∧ listening σ = false
    ∧ steps [Deliver SIGTERM; RunMain Quiet; RunMain Quiet; RunMain Quiet] σ
        = Some σ'
    ∧ inShutdown σ' = true
    ∧ listening σ' = false
    ∧ history σ' =
        [EvLog sampleLog logger.InfoLevel
           "starting with system code: cm-go-service, app name: cm-go-service, port: 8080";
         EvGo; EvNotify; EvRecv SIGTERM;
         EvLog sampleLog logger.InfoLevel "http server is shutting down...";
         EvShutdown].
Proof.
  eexists _, _. split; [vm_compute; reflexivity|].
  split; [eexists; reflexivity|]. split; [reflexivity|].
  split; [vm_compute; reflexivity|].
  by repeat split.
Qed.

(** ** What holds along every run *)

Lemma listens_app h1 h2 : listens (h1 ++ h2) = (listens h1 ++ listens h2)%list.
Proof.
  induction h1 as [|ev h1 IH]; [done|].
  destruct ev; cbn; by rewrite ?IH.
Qed.

Section Runs.

Variable server : Server.
Variable log : logger.UPPLogger.
Variable startLine : string.

Abbreviation Sound := (sound server log startLine).

(** Uses what the point of the process tells: premises that hold are
    discharged, premises that cannot hold are dropped. *)
Ltac use_point :=
  cbn in *;
  repeat match goal with
         | H : ?x = ?x → _ |- _ => specialize (H eq_refl)
         | H : ?x = ?x ∨ _ → _ |- _ => specialize (H (or_introl eq_refl))
         | H : _ ∨ ?x = ?x → _ |- _ => specialize (H (or_intror eq_refl))
         | H : ?x = ?y → _ |- _ =>
             assert (x ≠ y) as _ by discriminate; clear H
         | H : ?x = ?y ∨ ?z = ?w → _ |- _ =>
             assert (x ≠ y) as _ by discriminate;
             assert (z ≠ w) as _ by discriminate; clear H
         | H : _ ∧ _ |- _ => destruct H
         | H : ∃ _, _ |- _ => destruct H
         end.

(** One part of [sound] after a step that added events to the history. *)
Ltac history_fact :=
  rewrite ?listens_app; cbn [listens length app];
  rewrite ?app_nil_r;
  repeat match goal with
         | H : history _ = [] |- _ => rewrite !H
         | H : listens _ = [] |- _ => rewrite !H
         end;
  cbn [listens length app];
  try done;
  set_unfold; unfold not; intros;
  repeat (progress
    (repeat match goal with
            | H : _ ∨ _ |- _ => destruct H
            | H : _ ∧ _ |- _ => destruct H
            | H : ∃ _, _ |- _ => destruct H
            | H : False |- _ => destruct H
            | H : ?P → _, H' : ?P |- _ =>
                lazymatch type of P with Prop => specialize (H H') end
            | H : _ ∨ ?x = ?x → _ |- _ => specialize (H (or_intror eq_refl))
            | H : ?x = ?x ∨ _ → _ |- _ => specialize (H (or_introl eq_refl))
            | H : ?x = ?x → _ |- _ => specialize (H eq_refl)
            end;
     try discriminate; simplify_eq));
  try congruence;
  eauto 8;
  try (by eexists; (split; [|right; left; reflexivity]); unfold fatalLine;
       first [by right | left; eauto]).

Ltac arrive a s :=
  exists a, s; unfold sound, ended; use_point;
  repeat match goal with
         | H : exit _ = _ |- _ => rewrite H
         | H : goroutines _ = _ |- _ => rewrite H
         | H : inShutdown _ = _ |- _ => rewrite H
         | H : notified _ = _ |- _ => rewrite H
         | H : launched _ = _ |- _ => rewrite H
         end;
  repeat split; history_fact.

Lemma sound_step l σ σ' a s :
  Sound a s σ → step l σ = Some σ' → ∃ a' s', Sound a' s' σ'.
Proof.
  intros (Hm & Hg & Hc & Hn & Hs & Hp & Hl1 & Hla & Hub & Hrc & Hsd & Hnt
          & Hrt & Hft & Hfe & Hlg & Hrj & Hed & Hend) Hstep.
  unfold step in Hstep.
  destruct (exit σ) eqn:He; [done|].
  destruct l as [o|i o|sig|d].
  - rewrite Hm in Hstep.
    destruct a; cbn in Hstep; try (injection Hstep as <-).
    + arrive Spawning s.
    + cbn in Hg. rewrite (Hc eq_refl) in *. arrive Registering Checking.
    + arrive Waiting s.
    + destruct (ch σ) as [|c rest] eqn:Hch; [done|].
      injection Hstep as <-. arrive Stopping s.
    + arrive Closing s.
    + arrive Draining s.
    + destruct (forallb _ _); [arrive Returned s | arrive Failing s].
    + arrive Exiting s.
    + arrive Returned s.
    + arrive Returned s.
    + arrive Ended s.
    + by specialize (Hed eq_refl).
  - destruct (goroutines σ !! i) as [p|] eqn:Hi; [|done].
    cbn in Hstep.
    destruct (launched a) eqn:Hl; [|by rewrite Hg in Hi].
    rewrite Hg in Hi. destruct i as [|i]; [|done]. injection Hi as <-.
    destruct s; cbn in Hstep.
    + injection Hstep as <-. rewrite Hs.
      destruct (shutdownCalled a) eqn:Hsc; [arrive a Finished | arrive a Binding].
    + destruct o as [|[e|]|]; try done; injection Hstep as <-.
      * cbn. destruct (error_eqb e ErrServerClosed) eqn:Hee;
          [arrive a Finished | arrive a (Fatal e)].
      * arrive a Serving.
    + destruct (inShutdown σ) eqn:Hsh.
      * injection Hstep as <-. arrive a Finished.
      * destruct o as [| |e]; try done. injection Hstep as <-.
        cbn. destruct (error_eqb e ErrServerClosed) eqn:Hee;
          [arrive a Finished | arrive a (Fatal e)].
    + injection Hstep as <-. arrive a Dying.
    + injection Hstep as <-. arrive a Finished.
    + done.
  - destruct (existsb _ _) eqn:Hex; injection Hstep as <-.
    + arrive a s.
    + assert (relaying a = false) as Hrel.
      { destruct (relaying a); [|done]. rewrite Hn in Hex. by destruct sig. }
      arrive a s.
  - destruct (_ && _); [|done]. injection Hstep as <-. arrive a s.
Qed.

End Runs.

Lemma sound_steps server log line ls : ∀ σ σ' a s,
  sound server log line a s σ → steps ls σ = Some σ' →
  ∃ a' s', sound server log line a' s' σ'.
Proof.
  induction ls as [|l ls IH]; intros σ σ' a s Ha.
  - intros [= <-]. by exists a, s.
  - cbn. destruct (step l σ) as [σ1|] eqn:H1; [|done]. cbn.
    destruct (sound_step _ _ _ _ _ _ _ _ Ha H1) as (a1 & s1 & Ha1).
    by apply IH with a1 s1.
Qed.

Section Process.

Variable TestHandler : http.HandlerFunc.
Variable BuildInfoHandler : http.HandlerFunc.
Variable healthHandler : HealthService → http.HandlerFunc.
Variable gtgHandler : HealthService → http.HandlerFunc.

Abbreviation program :=
  (main TestHandler BuildInfoHandler healthHandler gtgHandler).

(** The logger of the process and the address it listens on, as [main]
    computes them. *)
Abbreviation loggerOf env :=
  (logger.NewUPPLogger (configured env "APP_NAME" "cm-go-service")
                       (configured env "LOG_LEVEL" "INFO")).
Abbreviation addressOf env flags :=
  (":" +:+ default (configured env "APP_PORT" "8080") (flagValue flags "port")).

(** Where the process starts. *)
Lemma main_sound env flags :
  ∃ server line a,
    Addr server = addressOf env flags
    ∧ sound server (loggerOf env) line a Checking (start (program env flags)).
Proof.
  unfold main, Run.
  cbn [cli.String cli.Name cli.Value cli.EnvVar cli.App
       cli.name cli.desc cli.options cli.cells app].
  rewrite !Getenv_configured.
  match goal with
  | |- context [cli.parse ?a flags] => set (app4 := a)
  end.
  assert (cli.deref app4 "app-name"
          = configured env "APP_NAME" "cm-go-service") as Hname.
  { unfold cli.deref, app4. cbn [cli.cells].
    by rewrite !lookup_insert_ne, lookup_insert_eq by done. }
  assert (cli.deref app4 "port" = configured env "APP_PORT" "8080") as Hport.
  { unfold cli.deref, app4. cbn [cli.cells].
    by rewrite !lookup_insert_ne, lookup_insert_eq by done. }
  assert (cli.deref app4 "log-level" = configured env "LOG_LEVEL" "INFO")
    as Hlevel.
  { unfold cli.deref, app4. cbn [cli.cells]. by rewrite lookup_insert_eq. }
  rewrite Hname, Hlevel.
  destruct (cli.parse app4 flags) as [app'|] eqn:Happ.
  - unfold action. rewrite registerEndpoints_mux.
    eexists _, _, Starting. split; cycle 1.
    + unfold sound, ended. cbn. repeat split; try done; set_solver.
    + cbn [newHTTPServer Addr]. by rewrite (parse_deref _ _ _ _ Happ), Hport.
  - exists (newHTTPServer
              (default (configured env "APP_PORT" "8080") (flagValue flags "port"))
              ServeMux.New), "", Rejected.
    split; [done|].
    unfold sound, ended. cbn. repeat split; try done; set_solver.
Qed.

(** Every state the process reaches is sound. *)
Lemma reachable_sound env flags σ :
  reachable (start (program env flags)) σ →
  ∃ server line a s,
    Addr server = addressOf env flags
    ∧ sound server (loggerOf env) line a s σ.
Proof.
  intros [ls Hls].
  destruct (main_sound env flags) as (server & line & a & Haddr & Ha).
  destruct (sound_steps _ _ _ _ _ _ _ _ Ha Hls) as (a' & s' & Hs).
  by exists server, line, a', s'.
Qed.

(** The lines written are among the entries logged, each by a logger that
    has its level enabled. *)
Lemma written_enabled h lvl msg :
  (lvl, msg) ∈ written h →
  ∃ l, EvLog l lvl msg ∈ h ∧ logger.IsLevelEnabled l lvl = true.
Proof.
  induction h as [|ev h IH]; cbn [written]; [by intros ?%elem_of_nil|].
  assert ((lvl, msg) ∈ written h →
          ∃ l, EvLog l lvl msg ∈ ev :: h
               ∧ logger.IsLevelEnabled l lvl = true) as Hrest.
  { intros Hin. destruct (IH Hin) as (l & Hl & He).
    exists l. split; [apply elem_of_cons; by right|exact He]. }
  destruct ev as [l' lvl' msg'| | | | | | | | |]; try exact Hrest.
  destruct (logger.IsLevelEnabled l' lvl') eqn:He; [|exact Hrest].
  intros [Heq|Hin]%elem_of_cons; [|by apply Hrest].
  injection Heq as -> ->. exists l'. split; [apply elem_of_cons; by left|exact He].
Qed.

(** C6, as the code has it: each of system code, application name and port
    is the value its option is given on the command line, else the value
    of its environment variable when that is set and not empty, else the
    documented default.  The logger is built before the command line is
    read: its service name and its level come from [APP_NAME] and
    [LOG_LEVEL] (or the defaults) alone, the level being the one the name
    parses to: INFO by default, and each of the four documented names its
    own.  Every entry the process logs goes to this logger, and the lines
    written are those of a level it has enabled. *)
Theorem configuration_from_environment env flags :
  Forall (λ f, f.1 ∈ optionNames) flags →
  let code := default (configured env "APP_SYSTEM_CODE" "cm-go-service")
                      (flagValue flags "app-system-code") in
  let name := default (configured env "APP_NAME" "cm-go-service")
                      (flagValue flags "app-name") in
  let port := default (configured env "APP_PORT" "8080")
                      (flagValue flags "port") in
  (∀ var dflt v, env !! var = Some v → v ≠ "" → configured env var dflt = v)
  ∧ (∀ var dflt, env !! var = None ∨ env !! var = Some "" →
       configured env var dflt = dflt)
  ∧ ∃ router log,
      registerEndpoints TestHandler BuildInfoHandler healthHandler gtgHandler
        (NewHealthService code name appDescription) log = Some router
      ∧ program env flags =
          mainAt (newHTTPServer port router) log
            ("starting with system code: " +:+ code
             +:+ ", app name: " +:+ name +:+ ", port: " +:+ port)
            Starting
      ∧ Addr (newHTTPServer port router) = ":" +:+ port
      ∧ logger.serviceName log = configured env "APP_NAME" "cm-go-service"
      ∧ logger.level log
        = logger.ParseLevel (configured env "LOG_LEVEL" "INFO")
      ∧ (env !! "LOG_LEVEL" = None → logger.level log = Some logger.InfoLevel)
      ∧ (∀ v lv,
           (v, lv) ∈ [("DEBUG", logger.DebugLevel); ("INFO", logger.InfoLevel);
                      ("WARN", logger.WarnLevel); ("ERROR", logger.ErrorLevel)] →
           env !! "LOG_LEVEL" = Some v → logger.level log = Some lv)
      ∧ ∀ σ,
          reachable (start (program env flags)) σ →
          (∀ l lvl msg, EvLog l lvl msg ∈ history σ → l = log)
          ∧ (∀ lvl msg, (lvl, msg) ∈ written (history σ) →
               logger.IsLevelEnabled log lvl = true).
Proof.
  intros Hflags code name port.
  split; [intros var dflt v; apply configured_set|].
  split; [intros var dflt; apply configured_unset|].
  destruct (main_starting TestHandler BuildInfoHandler healthHandler gtgHandler
              env flags Hflags) as (router & Hrouter & Hmain).
  exists router, (loggerOf env).
  split; [exact Hrouter|]. split; [exact Hmain|].
  split; [reflexivity|]. split; [reflexivity|]. split; [reflexivity|].
  split.
  { intros Hv. cbn [logger.level logger.NewUPPLogger].
    by rewrite (configured_unset env "LOG_LEVEL" "INFO" (or_introl Hv)). }
  split.
  { intros v lv Hin Hv. cbn [logger.level logger.NewUPPLogger].
    repeat (apply elem_of_cons in Hin as [Hin|Hin];
            [injection Hin as -> ->;
             by rewrite (configured_set env "LOG_LEVEL" "INFO" _ Hv)|]).
    by apply elem_of_nil in Hin. }
  intros σ Hr.
  destruct (reachable_sound env flags σ Hr) as (server & line & a & s & _ & H).
  destruct H as (Hm & Hg & Hck & Hn & Hs & Hp & Hl & Hla & Hub & Hrc & Hsd & Hnt
                 & Hrt & Hft & Hfe & Hlg & Hrj & Hed & Hend).
  split; [exact Hlg|].
  intros lvl msg Hin.
  destruct (written_enabled _ _ _ Hin) as (l & Hl' & He).
  by rewrite <- (Hlg _ _ _ Hl').
Qed.

(** X1: whatever the environment, the command line and the schedule, the
    process never panics, and when it ends on its own its status is 0, 1
    or 2. *)
Theorem process_never_panics env flags σ :
  reachable (start (program env flags)) σ →
  (EvPanic ∉ history σ)
  ∧ ∀ c, exit σ = Some (Code c) → c = 0 ∨ c = 1 ∨ c = 2.
Proof.
  intros Hr.
  destruct (reachable_sound env flags σ Hr) as (server & line & a & s & _ & H).
  destruct H as (Hm & Hg & Hck & Hn & Hs & Hp & Hl & Hla & Hub & Hrc & Hsd & Hnt
                 & Hrt & Hft & Hfe & Hlg & Hrj & Hed & Hend).
  split; [exact Hp|]. intros c Hc. unfold ended in Hend. rewrite Hc in Hend.
  naive_solver.
Qed.

(** X2: the listener is asked to bind at most once in the life of the
    process, and only on the address made of the configured port. *)
Theorem binds_once_on_configured_address env flags σ :
  reachable (start (program env flags)) σ →
  (length (listens (history σ)) ≤ 1)%nat
  ∧ ∀ addr r, (addr, r) ∈ listens (history σ) → addr = addressOf env flags.
Proof.
  intros Hr.
  destruct (reachable_sound env flags σ Hr)
    as (server & line & a & s & Haddr & H).
  destruct H as (Hm & Hg & Hck & Hn & Hs & Hp & Hl & Hla & Hub & Hrc & Hsd & Hnt
                 & Hrt & Hft & Hfe & Hlg & Hrj & Hed & Hend).
  split; [exact Hl|]. intros addr r Hin. rewrite <- Haddr. by eapply Hla.
Qed.

(** X3: the process ends with status 0 only after a signal was taken off
    the channel and [Shutdown] returned without error. *)
Theorem exit_zero_after_clean_drain env flags σ :
  reachable (start (program env flags)) σ →
  exit σ = Some (Code 0) →
  EvDrained None ∈ history σ ∧ ∃ sig, EvRecv sig ∈ history σ.
Proof.
  intros Hr Hc.
  destruct (reachable_sound env flags σ Hr) as (server & line & a & s & _ & H).
  destruct H as (Hm & Hg & Hck & Hn & Hs & Hp & Hl & Hla & Hub & Hrc & Hsd & Hnt
                 & Hrt & Hft & Hfe & Hlg & Hrj & Hed & Hend).
  unfold ended in Hend. rewrite Hc in Hend.
  destruct Hend as [(_ & ? & ?)|[[? _]|[? _]]]; [done|done|done].
Qed.

(** X4: the process ends with status 1 only after one of the two fatal
    lines was logged, with the logger built from the environment. *)
Theorem exit_one_after_fatal_line env flags σ :
  reachable (start (program env flags)) σ →
  exit σ = Some (Code 1) →
  ∃ msg, fatalLine msg
         ∧ EvLog (loggerOf env) logger.FatalLevel msg ∈ history σ.
Proof.
  intros Hr Hc.
  destruct (reachable_sound env flags σ Hr) as (server & line & a & s & _ & H).
  destruct H as (Hm & Hg & Hck & Hn & Hs & Hp & Hl & Hla & Hub & Hrc & Hsd & Hnt
                 & Hrt & Hft & Hfe & Hlg & Hrj & Hed & Hend).
  unfold ended in Hend. rewrite Hc in Hend.
  destruct Hend as [[? _]|[[_ ?]|[? _]]]; [done|done|done].
Qed.

(** X5: [Shutdown] is called only after a signal was taken off the
    channel. *)
Theorem shutdown_only_after_signal env flags σ :
  reachable (start (program env flags)) σ →
  EvShutdown ∈ history σ →
  ∃ sig, EvRecv sig ∈ history σ.
Proof.
  intros Hr Hsh.
  destruct (reachable_sound env flags σ Hr) as (server & line & a & s & _ & H).
  destruct H as (Hm & Hg & Hck & Hn & Hs & Hp & Hl & Hla & Hub & Hrc & Hsd & Hnt
                 & Hrt & Hft & Hfe & Hlg & Hrj & Hed & Hend).
  apply Hrc. specialize (Hsd Hsh). by destruct a.
Qed.

(** X6: a signal ends the process outright only while [signal.Notify] has
    not run yet; once it has run, a signal of either kind is taken by the
    channel or dropped and the process goes on. *)
Theorem killed_only_before_relay env flags σ :
  reachable (start (program env flags)) σ →
  (∀ sig, exit σ = Some (Killed sig) → EvNotify ∉ history σ)
  ∧ (EvNotify ∈ history σ → exit σ = None →
     ∀ sig, ∃ σ', step (Deliver sig) σ = Some σ' ∧ exit σ' = None).
Proof.
  intros Hr.
  destruct (reachable_sound env flags σ Hr) as (server & line & a & s & _ & H).
  destruct H as (Hm & Hg & Hck & Hn & Hs & Hp & Hl & Hla & Hub & Hrc & Hsd & Hnt
                 & Hrt & Hft & Hfe & Hlg & Hrj & Hed & Hend).
  split.
  - intros sig Hk. unfold ended in Hend. by rewrite Hk in Hend.
  - intros Hin He sig. unfold step. rewrite He, Hn, (Hnt Hin).
    destruct sig; cbn; eexists; (split; [reflexivity|exact He]).
Qed.

(** X7: every line the process logs is written with the logger built from
    the environment (or the defaults): no option of the command line
    changes the logger. *)
Theorem logger_ignores_command_line env flags σ :
  reachable (start (program env flags)) σ →
  ∀ l lvl msg, EvLog l lvl msg ∈ history σ → l = loggerOf env.
Proof.
  intros Hr.
  destruct (reachable_sound env flags σ Hr) as (server & line & a & s & _ & H).
  destruct H as (Hm & Hg & Hck & Hn & Hs & Hp & Hl & Hla & Hub & Hrc & Hsd & Hnt
                 & Hrt & Hft & Hfe & Hlg & Hrj & Hed & Hend).
  exact Hlg.
Qed.

(** X8: the main goroutine is never stuck but on the empty signal channel:
    in every other state of a live process it can run its next operation
    (or return, which ends the process). *)
Theorem main_blocks_only_on_signal env flags σ :
  reachable (start (program env flags)) σ →
  exit σ = None →
  is_Some (step (RunMain Quiet) σ)
  ∨ ((∃ k, main_ σ = Recv k) ∧ ch σ = []).
Proof.
  intros Hr He.
  destruct (reachable_sound env flags σ Hr) as (server & line & a & s & _ & H).
  destruct H as (Hm & _).
  unfold step. rewrite He, Hm.
  destruct a; cbn; try (by left; eexists).
  destruct (ch σ) as [|c rest]; [right|left]; [|by eexists].
  split; [by eexists|done].
Qed.

End Process.

(** ** More on routing *)

Section Routes.

Variable TestHandler : http.HandlerFunc.
Variable BuildInfoHandler : http.HandlerFunc.
Variable healthHandler : HealthService → http.HandlerFunc.
Variable gtgHandler : HealthService → http.HandlerFunc.

Abbreviation register2 :=
  (registerEndpoints TestHandler BuildInfoHandler healthHandler gtgHandler).

(** X9: [registerEndpoints] never panics, whatever the handlers, the health
    service and the logger, and the router it returns knows the four
    patterns [/__health], [/__gtg], [/__build-info] and [/] and no other. *)
Theorem registers_four_patterns hs log :
  ∃ mx,
    register2 hs log = Some mx
    ∧ ∀ p, is_Some (ServeMux.m mx !! p)
           ↔ p ∈ ["/__health"; status.GTGPath; status.BuildInfoPath; "/"].
Proof.
  eexists. split; [apply registerEndpoints_mux|].
  intros p. cbn [ServeMux.m].
  unfold status.GTGPath, status.BuildInfoPath.
  rewrite !lookup_insert_is_Some, lookup_empty, is_Some_alt.
  set_unfold. naive_solver.
Qed.

(** X10: a GET request to [/test] is answered by [TestHandler], run under a
    context that ends after 14 seconds at the latest; the client sees its
    run cut at 14 seconds, and the logging and metrics layers record what
    the handler itself did. *)
Theorem get_test_served_by_handler hs log mx req :
  register2 hs log = Some mx →
  http.Path req = "/test" →
  http.Method req = "GET" →
  let req' := http.WithTimeout req httpHandlersTimeout in
  http.ServeHTTP mx req =
    {| http.run := http.timeoutRun httpHandlersTimeout "" (TestHandler req');
       http.trace := requestLog req' (TestHandler req')
                     ++ requestTimer req' (TestHandler req') |}.
Proof.
  intros Hmx Hpath Hmeth req'.
  rewrite (serve_registered _ _ _ _ hs log mx req Hmx)
    by (by rewrite Hpath).
  rewrite Hpath. cbn -[http.ServeHTTP wrappedServicesRouter].
  rewrite serve_wrapped. unfold mux.serve. rewrite Match_servicesRouter.
  cbn [http.WithTimeout http.Path http.Method]. rewrite Hpath, Hmeth.
  reflexivity.
Qed.

(** X11: on every path but the operational ones the router answers within
    the 14 seconds of the timeout layer, which is less than the write
    timeout of the server [newHTTPServer] builds: the call returns or
    panics by then and never blocks, whatever [TestHandler] does. *)
Theorem business_answer_within_budget hs log mx req port :
  register2 hs log = Some mx →
  rooted (http.Path req) = true →
  operational (http.Path req) = false →
  match http.run (http.ServeHTTP mx req) with
  | http.Returns d _ => d ≤ httpHandlersTimeout
  | http.Panics d => d < httpHandlersTimeout
  | http.Blocks => False
  end
  ∧ httpHandlersTimeout < WriteTimeout (newHTTPServer port mx).
Proof.
  intros Hmx Hroot Hop. split; [|done].
  rewrite (serve_cases _ _ _ _ hs log mx req Hmx).
  destruct (String.eqb_spec (http.Path req) "*") as [Hstar|_].
  { rewrite Hstar in Hroot. discriminate Hroot. }
  destruct (String.eqb (http.Method req) "CONNECT" || http.clean (http.Path req));
    [|by cbn].
  rewrite (dispatch_registered _ _ _ _ hs log mx req Hmx), Hroot.
  rewrite operationalHandler_None by done.
  rewrite serve_wrapped. cbn [http.run]. unfold http.timeoutRun.
  destruct (mux.serve _ _) as [d resp| |d]; cbn.
  - destruct (Z.ltb_spec d httpHandlersTimeout); cbn; lia.
  - done.
  - destruct (Z.ltb_spec d httpHandlersTimeout); cbn; [lia|done].
Qed.

End Routes.

(** ** Signals *)


(** ** The runs of the process at sample inputs *)

Lemma sample_clean_run :
  ∃ σ,
    steps cleanRun (start (sampleMain sampleEnv sampleFlags)) = Some σ
    ∧ exit σ = Some (Code 0)
    ∧ EvShutdown ∈ history σ.
Proof.
  eexists. split; [vm_compute; reflexivity|]. split; [reflexivity|].
  cbn. set_solver.
Qed.

Lemma sample_failed_bind_run :
  ∃ σ,
    steps failedBindRun (start (sampleMain sampleEnv sampleFlags)) = Some σ
    ∧ exit σ = Some (Code 1).
Proof.
  eexists. split; [vm_compute; reflexivity|]. reflexivity.
Qed.

Lemma sample_killed_run :
  ∃ σ,
    steps [Deliver SIGINT] (start (sampleMain sampleEnv sampleFlags)) = Some σ
    ∧ exit σ = Some (Killed SIGINT).
Proof.
  eexists. split; [vm_compute; reflexivity|]. reflexivity.
Qed.

Lemma sample_waiting_run :
  ∃ σ,
    steps waitingRun (start (sampleMain sampleEnv sampleFlags)) = Some σ
    ∧ exit σ = None
    ∧ EvNotify ∈ history σ.
Proof.
  eexists. split; [vm_compute; reflexivity|]. split; [reflexivity|].
  cbn. set_solver.
Qed.

Lemma sampleFlags_declared :
  Forall (λ f : string * string, f.1 ∈ optionNames) sampleFlags.
Proof. repeat constructor. Defined.

Lemma configuration_from_environment_witness :
  Forall (λ f : string * string, f.1 ∈ optionNames) sampleFlags
  ∧ ∃ router log,
      sampleMain sampleEnv sampleFlags =
        mainAt (newHTTPServer "7000" router) log
          "starting with system code: upp-cm, app name: Content Manager, port: 7000"
          Starting
      ∧ logger.serviceName log = "Content Manager"
      ∧ logger.level log = Some logger.DebugLevel.
Proof.
  split; [exact sampleFlags_declared|].
  destruct (configuration_from_environment (respond 5 200 "test")
              (respond 1 200 "build") (λ _, respond 2 200 "health")
              (λ _, respond 3 200 "OK") sampleEnv sampleFlags
              sampleFlags_declared)
    as (_ & _ & router & log & _ & Hmain & _ & Hname & _ & _ & Hlevel & _).
  exists router, log. split; [exact Hmain|]. split; [exact Hname|].
  apply (Hlevel "DEBUG"); [|reflexivity].
  apply elem_of_cons. by left.
Defined.

(** C6 as stated does not hold for every setting: with [APP_PORT] set to
    9000 and the option [port] given as 7000 on the command line the
    server is built for port 7000; and with [APP_PORT] set to the empty
    string the documented default 8080 stays. *)
Lemma environment_overridden_counterexample :
  sampleEnv !! "APP_PORT" = Some "9000"
  ∧ (∃ router log line,
       sampleMain sampleEnv [("port", "7000")] =
         mainAt (newHTTPServer "7000" router) log line Starting
       ∧ Addr (newHTTPServer "7000" router) = ":7000")
  ∧ (<["APP_PORT" := ""]> (∅ : gmap string string)) !! "APP_PORT" = Some ""
  ∧ ∃ router log line,
      sampleMain (<["APP_PORT" := ""]> ∅) [] =
        mainAt (newHTTPServer "8080" router) log line Starting
      ∧ Addr (newHTTPServer "8080" router) = ":8080".
Proof.
  split; [reflexivity|]. split.
  { destruct (main_starting (respond 5 200 "test")
                (respond 1 200 "build") (λ _, respond 2 200 "health")
                (λ _, respond 3 200 "OK") sampleEnv [("port", "7000")])
      as (router & _ & Hmain).
    { repeat constructor. }
    eexists router, _, _. split; [exact Hmain|reflexivity]. }
  split; [reflexivity|].
  destruct (main_starting (respond 5 200 "test")
              (respond 1 200 "build") (λ _, respond 2 200 "health")
              (λ _, respond 3 200 "OK") (<["APP_PORT" := ""]> ∅) [])
    as (router & _ & Hmain); [constructor|].
  eexists router, _, _. split; [exact Hmain|reflexivity].
Qed.

Lemma process_never_panics_witness :
  ∃ σ,
    reachable (start (sampleMain sampleEnv sampleFlags)) σ
    ∧ exit σ = Some (Code 0)
    ∧ EvPanic ∉ history σ.
Proof.
  destruct sample_clean_run as (σ & Hσ & He & _).
  unfold sampleMain in Hσ |- *.
  pose proof (ex_intro (λ ls, steps ls _ = Some σ) _ Hσ) as Hr.
  exists σ. split; [exact Hr|]. split; [exact He|].
  exact (proj1 (process_never_panics _ _ _ _ _ _ σ Hr)).
Defined.

Lemma binds_once_on_configured_address_witness :
  ∃ σ,
    reachable (start (sampleMain sampleEnv sampleFlags)) σ
    ∧ (length (listens (history σ)) ≤ 1)%nat
    ∧ ∀ addr r, (addr, r) ∈ listens (history σ) →
        addr = ":" +:+ default (configured sampleEnv "APP_PORT" "8080")
                               (flagValue sampleFlags "port").
Proof.
  destruct sample_failed_bind_run as (σ & Hσ & _).
  unfold sampleMain in Hσ |- *.
  pose proof (ex_intro (λ ls, steps ls _ = Some σ) _ Hσ) as Hr.
  exists σ. split; [exact Hr|].
  exact (binds_once_on_configured_address _ _ _ _ _ _ σ Hr).
Defined.

Lemma exit_zero_after_clean_drain_witness :
  ∃ σ,
    reachable (start (sampleMain sampleEnv sampleFlags)) σ
    ∧ exit σ = Some (Code 0)
    ∧ EvDrained None ∈ history σ
    ∧ ∃ sig, EvRecv sig ∈ history σ.
Proof.
  destruct sample_clean_run as (σ & Hσ & He & _).
  unfold sampleMain in Hσ |- *.
  pose proof (ex_intro (λ ls, steps ls _ = Some σ) _ Hσ) as Hr.
  exists σ. split; [exact Hr|]. split; [exact He|].
  exact (exit_zero_after_clean_drain _ _ _ _ _ _ σ Hr He).
Defined.

Lemma exit_one_after_fatal_line_witness :
  ∃ σ,
    reachable (start (sampleMain sampleEnv sampleFlags)) σ
    ∧ exit σ = Some (Code 1)
    ∧ ∃ msg, fatalLine msg
             ∧ EvLog (logger.NewUPPLogger
                        (configured sampleEnv "APP_NAME" "cm-go-service")
                        (configured sampleEnv "LOG_LEVEL" "INFO"))
                 logger.FatalLevel msg ∈ history σ.
Proof.
  destruct sample_failed_bind_run as (σ & Hσ & He).
  unfold sampleMain in Hσ |- *.
  pose proof (ex_intro (λ ls, steps ls _ = Some σ) _ Hσ) as Hr.
  exists σ. split; [exact Hr|]. split; [exact He|].
  exact (exit_one_after_fatal_line _ _ _ _ _ _ σ Hr He).
Defined.

Lemma shutdown_only_after_signal_witness :
  ∃ σ,
    reachable (start (sampleMain sampleEnv sampleFlags)) σ
    ∧ EvShutdown ∈ history σ
    ∧ ∃ sig, EvRecv sig ∈ history σ.
Proof.
  destruct sample_clean_run as (σ & Hσ & _ & Hsh).
  unfold sampleMain in Hσ |- *.
  pose proof (ex_intro (λ ls, steps ls _ = Some σ) _ Hσ) as Hr.
  exists σ. split; [exact Hr|]. split; [exact Hsh|].
  exact (shutdown_only_after_signal _ _ _ _ _ _ σ Hr Hsh).
Defined.

Lemma killed_only_before_relay_witness :
  (∃ σ,
     reachable (start (sampleMain sampleEnv sampleFlags)) σ
     ∧ exit σ = Some (Killed SIGINT)
     ∧ EvNotify ∉ history σ)
  ∧ ∃ σ,
      reachable (start (sampleMain sampleEnv sampleFlags)) σ
      ∧ EvNotify ∈ history σ
      ∧ exit σ = None
      ∧ ∃ σ', step (Deliver SIGINT) σ = Some σ' ∧ exit σ' = None.
Proof.
  split.
  - destruct sample_killed_run as (σ & Hσ & He).
    unfold sampleMain in Hσ |- *.
    pose proof (ex_intro (λ ls, steps ls _ = Some σ) _ Hσ) as Hr.
    exists σ. split; [exact Hr|]. split; [exact He|].
    exact (proj1 (killed_only_before_relay _ _ _ _ _ _ σ Hr) SIGINT He).
  - destruct sample_waiting_run as (σ & Hσ & He & Hn).
    unfold sampleMain in Hσ |- *.
    pose proof (ex_intro (λ ls, steps ls _ = Some σ) _ Hσ) as Hr.
    exists σ. split; [exact Hr|]. split; [exact Hn|]. split; [exact He|].
    exact (proj2 (killed_only_before_relay _ _ _ _ _ _ σ Hr) Hn He SIGINT).
Defined.

Lemma logger_ignores_command_line_witness :
  ∃ σ,
    reachable (start (sampleMain sampleEnv sampleFlags)) σ
    ∧ ∀ l lvl msg, EvLog l lvl msg ∈ history σ →
        l = logger.NewUPPLogger
              (configured sampleEnv "APP_NAME" "cm-go-service")
              (configured sampleEnv "LOG_LEVEL" "INFO").
Proof.
  destruct sample_clean_run as (σ & Hσ & _).
  unfold sampleMain in Hσ |- *.
  pose proof (ex_intro (λ ls, steps ls _ = Some σ) _ Hσ) as Hr.
  exists σ. split; [exact Hr|].
  exact (logger_ignores_command_line _ _ _ _ _ _ σ Hr).
Defined.

Lemma main_blocks_only_on_signal_witness :
  ∃ σ,
    reachable (start (sampleMain sampleEnv sampleFlags)) σ
    ∧ exit σ = None
    ∧ (is_Some (step (RunMain Quiet) σ)
       ∨ ((∃ k, main_ σ = Recv k) ∧ ch σ = [])).
Proof.
  destruct sample_waiting_run as (σ & Hσ & He & _).
  unfold sampleMain in Hσ |- *.
  pose proof (ex_intro (λ ls, steps ls _ = Some σ) _ Hσ) as Hr.
  exists σ. split; [exact Hr|]. split; [exact He|].
  exact (main_blocks_only_on_signal _ _ _ _ _ _ σ Hr He).
Defined.

Lemma get_test_served_by_handler_witness :
  ∃ mx,
    sampleRouter (respond 5 200 "test") = Some mx
    ∧ http.ServeHTTP mx (request "GET" "/test") =
        {| http.run := http.Returns 5 {| http.Code := 200; http.Body := "test" |};
           http.trace := [http.Logged "GET" "/test" 200 5; http.Timed "GET" 5] |}.
Proof.
  eexists. split; [unfold sampleRouter; apply registerEndpoints_mux|].
  cbv beta.
  rewrite (get_test_served_by_handler (respond 5 200 "test")
             (respond 1 200 "build") (λ _, respond 2 200 "health")
             (λ _, respond 3 200 "OK") sampleHealth sampleLog _
             (request "GET" "/test") (registerEndpoints_mux _ _ _ _ _ _)
             eq_refl eq_refl).
  reflexivity.
Defined.

Lemma business_answer_within_budget_witness :
  ∃ mx,
    sampleRouter stuck = Some mx
    ∧ rooted "/test" = true
    ∧ operational "/test" = false
    ∧ match http.run (http.ServeHTTP mx (request "GET" "/test")) with
      | http.Returns d _ => d ≤ httpHandlersTimeout
      | http.Panics d => d < httpHandlersTimeout
      | http.Blocks => False
      end
    ∧ httpHandlersTimeout < WriteTimeout (newHTTPServer "8080" mx).
Proof.
  eexists. split; [unfold sampleRouter; apply registerEndpoints_mux|].
  split; [reflexivity|]. split; [reflexivity|].
  exact (business_answer_within_budget stuck
           (respond 1 200 "build") (λ _, respond 2 200 "health")
           (λ _, respond 3 200 "OK") sampleHealth sampleLog _
           (request "GET" "/test") "8080" (registerEndpoints_mux _ _ _ _ _ _)
           eq_refl eq_refl).
Defined.

